(** * sobeys-scctower backend: the TTL query cache and the chat task registry

    A shallow embedding of the caching and task-tracking core of
    [backend/core.py] and [backend/router.py].

    Conventions of the embedding:
    - a Python [str] is a [string] whose characters are the code points
      0..255;
    - [time.time()] values are exact rationals ([Q]); every call of
      [time.time()] is an input of the function that makes it;
    - the module-level dictionaries [_sql_cache] and [_chat_tasks] are
      [gmap]s threaded through the functions that touch them;
    - a call into the Databricks SDK or into [httpx] is an input too: the
      client object is a function giving the outcome of the call, and each
      call is recorded in the state so that it can be counted;
    - a Python exception is a value of [exn]; code that can raise returns
      [exn + A];
    - logging is not modelled. *)

From Stdlib Require Import Ascii String QArith Lqa.
From stdpp Require Import gmap strings pretty fin_maps list.

Open Scope string_scope.

(** ** Python values shared by both modules *)

Module Py.

(** An exception: its class name and [str(e)]. *)
Record exn := Exn { exn_class : string; exn_str : string }.

Definition AttributeError (ty attr : string) : exn :=
  Exn "AttributeError" ("'" +:+ ty +:+ "' object has no attribute '" +:+ attr +:+ "'").

Definition TypeError (msg : string) : exn := Exn "TypeError" msg.

(** Code that may raise returns [exn + A]; [x ← m; k] runs [k] on the value
    of [m] and passes an exception of [m] on. *)
Definition raise {A} (e : exn) : exn + A := inl e.
Definition ret {A} (a : A) : exn + A := inr a.

#[global] Instance exn_bind : MBind (sum exn) := λ A B k m,
  match m with
  | inl e => inl e
  | inr a => k a
  end.

(** [str.isspace] on one character, for the code points below 256:
    TAB..CR, FS..US, SPACE, NEL and NBSP. *)
Definition isspace (c : ascii) : bool :=
  let n := N_of_ascii c in
  (((9 <=? n) && (n <=? 13)) || ((28 <=? n) && (n <=? 32))
   || (n =? 133) || (n =? 160))%N.

Fixpoint lstrip (s : string) : string :=
  match s with
  | EmptyString => EmptyString
  | String c s' => if isspace c then lstrip s' else s
  end.

Fixpoint rstrip (s : string) : string :=
  match s with
  | EmptyString => EmptyString
  | String c s' =>
      match rstrip s' with
      | EmptyString => if isspace c then EmptyString else String c EmptyString
      | r => String c r
      end
  end.

(** [s.strip()] *)
Definition strip (s : string) : string := rstrip (lstrip s).

(** [x < y] on timestamps and durations. *)
Definition Qltb (x y : Q) : bool :=
  match (x ?= y)%Q with
  | Lt => true
  | _ => false
  end.

(** [str(n)] and [f"{n}"] for an [int]. *)
Definition str_of_int (n : Z) : string := pretty n.

(** [sub in s] *)
Definition contains (sub s : string) : Prop :=
  ∃ pre post, s = pre +:+ sub +:+ post.

End Py.

(** ** [backend/core.py]: the SQL helper with its TTL cache *)

Module Core.

(** *** The part of the Databricks SDK's statement API that [execute_sql] reads.
    Every field is [Optional] in the SDK. *)

Inductive StatementState :=
  CANCELED | CLOSED | FAILED | PENDING | RUNNING | SUCCEEDED.

#[global] Instance StatementState_eq_dec : EqDecision StatementState.
Proof. solve_decision. Defined.

Record ServiceError := { message : option string }.
Record StatementStatus :=
  { error : option ServiceError; state : option StatementState }.
Record ColumnInfo := { name : option string }.
Record ResultSchema := { columns : option (list ColumnInfo) }.
Record ResultManifest := { schema : option ResultSchema }.
Record ResultData := { data_array : option (list (list (option string))) }.
Record StatementResponse :=
  { manifest : option ResultManifest;
    result : option ResultData;
    status : option StatementStatus }.

(** [ws.statement_execution.execute_statement(warehouse_id=.., statement=..,
    wait_timeout="30s")]: returns a response or raises. *)
Record WorkspaceClient :=
  { execute_statement : string → string → Py.exn + StatementResponse }.

Record AppConfig := { warehouse_id : string }.

(** A result row, [dict[str, Any]]: column name to cell. *)
Abbreviation Row := (gmap (option string) (option string)).

(** [dict(zip(columns, row))]: [zip] stops at the shorter list and a later
    pair with the same key replaces an earlier one. *)
Definition dict_zip (cols : list (option string)) (row : list (option string)) : Row :=
  foldl (λ d kv, <[kv.1 := kv.2]> d) ∅ (zip cols row).

(** [_sql_cache: dict[str, tuple[float, list[dict[str, Any]]]]] *)
Abbreviation Cache := (gmap string (Q * list Row)).

(** The process state [execute_sql] works on: the cache, and the statements
    sent to the warehouse so far, oldest first. *)
Record State := { _sql_cache : Cache; executed : list string }.

Definition SQL_CACHE_TTL : Z := 300.

(** [state != StatementState.SUCCEEDED], where [state] is
    [response.status.state if response.status else "UNKNOWN"]. *)
Definition not_succeeded (response : StatementResponse) : bool :=
  match status response with
  | Some st => bool_decide (state st ≠ Some SUCCEEDED)
  | None => true
  end.

(** [response.manifest and response.result and response.result.data_array]:
    when it is truthy, the manifest and the non-empty data array. *)
Definition manifest_and_data (response : StatementResponse)
  : option (ResultManifest * list (list (option string))) :=
  match manifest response, result response with
  | Some m, Some r =>
      match data_array r with
      | Some (row :: rows) => Some (m, row :: rows)
      | _ => None
      end
  | _, _ => None
  end.

(** The rows of a response as the warehouse sent them: those of
    [response.result.data_array], none when either is [None]. *)
Definition data_rows (response : StatementResponse) : list (list (option string)) :=
  match result response with
  | Some r => default [] (data_array r)
  | None => []
  end.

(** [[col.name for col in response.manifest.schema.columns]] *)
Definition column_names (m : ResultManifest) : Py.exn + list (option string) :=
  match schema m with
  | None => Py.raise (Py.AttributeError "NoneType" "columns")
  | Some sch =>
      match columns sch with
      | None => Py.raise (Py.TypeError "'NoneType' object is not iterable")
      | Some cols => Py.ret (name <$> cols)
      end
  end.

(** [_sql_cache[cache_key] = (now, rows)] *)
Definition cache_store (cache_key : string) (now : Q) (rows : list Row)
    (σ : State) : State :=
  {| _sql_cache := <[cache_key := (now, rows)]> (_sql_cache σ);
     executed := executed σ |}.

(** The call of [execute_statement]: the statement joins the record of
    executed statements, whatever the outcome. *)
Definition call_execute_statement (ws : WorkspaceClient) (config : AppConfig)
    (query : string) (σ : State) : (Py.exn + StatementResponse) * State :=
  (execute_statement ws (warehouse_id config) query,
   {| _sql_cache := _sql_cache σ; executed := executed σ ++ [query] |}).

(** The cache lookup at the head of [execute_sql]: the cached rows when the
    key is present and [now - cached_at < ttl]. *)
Definition fresh_rows (cache_key : string) (ttl : Z) (now : Q) (σ : State)
  : option (list Row) :=
  match _sql_cache σ !! cache_key with
  | Some (cached_at, cached_rows) =>
      if Py.Qltb (now - cached_at) (inject_Z ttl) then Some cached_rows else None
  | None => None
  end.

(** The tail of [execute_sql], from the test of the statement state on. *)
Definition handle_response (cache_key : string) (now : Q)
    (response : StatementResponse) (σ : State)
  : (Py.exn + list Row) * State :=
  if not_succeeded response then (Py.ret [], σ)
  else
    match manifest_and_data response with
    | Some (m, data) =>
        match column_names m with
        | inl e => (Py.raise e, σ)
        | inr cols =>
            let rows := dict_zip cols <$> data in
            (Py.ret rows, cache_store cache_key now rows σ)
        end
    | None => (Py.ret [], cache_store cache_key now [] σ)
    end.

(** [execute_sql(ws, config, query, ttl)], with [now] the value of its
    [time.time()]. *)
Definition execute_sql (ws : WorkspaceClient) (config : AppConfig)
    (query : string) (ttl : Z) (now : Q) (σ : State)
  : (Py.exn + list Row) * State :=
  let cache_key := Py.strip query in
  match fresh_rows cache_key ttl now σ with
  | Some cached_rows => (Py.ret cached_rows, σ)
  | None =>
      let '(outcome, σ1) := call_execute_statement ws config query σ in
      match outcome with
      | inl e => (Py.raise e, σ1)
      | inr response => handle_response cache_key now response σ1
      end
  end.

End Core.

(** ** [backend/models.py]: the request and response models of the chat
    endpoints *)

Module Models.

Record ChatMessageIn := { role : string; content : string }.

Record ChatRequestIn := { messages : list ChatMessageIn }.

Record ChatTaskOut :=
  { task_id : string;
    status : string;  (* "pending", "running", "done", "error" *)
    response : string }.

End Models.

(** ** JSON values, as [resp.json()] returns them *)

Module Json.

(** A [dict] is the list of its items in insertion order, with distinct
    keys. *)
Unset Elimination Schemes.
Inductive JSON :=
| JNull
| JBool (b : bool)
| JInt (n : Z)
| JFloat (q : Q)
| JStr (s : string)
| JArr (items : list JSON)
| JObj (items : list (string * JSON)).
Set Elimination Schemes.

(** [type(v).__name__] *)
Definition type_name (v : JSON) : string :=
  match v with
  | JNull => "NoneType"
  | JBool _ => "bool"
  | JInt _ => "int"
  | JFloat _ => "float"
  | JStr _ => "str"
  | JArr _ => "list"
  | JObj _ => "dict"
  end.

Fixpoint lookup_key (k : string) (items : list (string * JSON)) : option JSON :=
  match items with
  | [] => None
  | (k', v) :: rest => if bool_decide (k' = k) then Some v else lookup_key k rest
  end.

(** [v.get(k, default)]: only a [dict] has the method. *)
Definition get (v : JSON) (k : string) (default : JSON) : Py.exn + JSON :=
  match v with
  | JObj items => Py.ret (from_option id default (lookup_key k items))
  | _ => Py.raise (Py.AttributeError (type_name v) "get")
  end.

(** [v == s] for a [str] literal [s]. *)
Definition eq_str (v : JSON) (s : string) : bool :=
  match v with
  | JStr t => bool_decide (t = s)
  | _ => false
  end.

(** [reversed(v)]: a list gives its items, a [str] its characters and a
    [dict] its keys, each from the end; nothing else is reversible. *)
Definition reversed (v : JSON) : Py.exn + list JSON :=
  match v with
  | JArr items => Py.ret (reverse items)
  | JStr s => Py.ret ((λ c, JStr (String c EmptyString)) <$> reverse (list_ascii_of_string s))
  | JObj items => Py.ret ((λ kv, JStr kv.1) <$> reverse items)
  | _ => Py.raise (Py.TypeError ("'" +:+ type_name v +:+ "' object is not reversible"))
  end.

End Json.

(** ** [backend/router.py]: the chat task store, its worker and the two
    chat endpoints *)

Module Router.

Import Json.

(** An entry of [_chat_tasks]: a dict with the keys ["status"] and
    ["response"], and ["created_at"] when the writer put it there. *)
Record Task :=
  { status : string; response : string; created_at : option Q }.

(** [_chat_tasks: dict[str, dict[str, Any]]] *)
Abbreviation Tasks := (gmap string Task).

(** *** [_cleanup_old_tasks] *)

(** [now - v.get("created_at", 0) > 300] *)
Definition is_stale (now : Q) (v : Task) : bool :=
  Py.Qltb 300 (now - from_option id 0 (created_at v))%Q.

(** [_cleanup_old_tasks()], with [now] the value of its [_time.time()]. *)
Definition _cleanup_old_tasks (now : Q) (_chat_tasks : Tasks) : Tasks :=
  let stale :=
    fst <$> List.filter (λ kv, is_stale now kv.2) (map_to_list _chat_tasks) in
  foldl (λ tasks k, delete k tasks) _chat_tasks stale.

(** *** [_run_mas_task] *)

(** What [httpx.post] returns: the status code, the body text, and the
    outcome of [resp.json()]. *)
Record HttpResponse :=
  { status_code : Z; text : string; json : Py.exn + JSON }.

(** [httpx.post(url, json={"input": messages}, headers=.., timeout=..)]:
    returns a response or raises. *)
Record Httpx :=
  { post : string → list (string * string) → gmap string string
           → Py.exn + HttpResponse }.

(** The inner loop of the scan, over the content parts of one message:
    the text of the first part of type ["output_text"] whose text is not
    blank, or [""]. *)
Fixpoint scan_content (content_list : list JSON) : Py.exn + string :=
  match content_list with
  | [] => Py.ret ""
  | c :: rest =>
      ty ← get c "type" JNull;
      if eq_str ty "output_text" then
        t ← get c "text" (JStr "");
        match t with
        | JStr s => if bool_decide (Py.strip s ≠ "") then Py.ret s
                    else scan_content rest
        | _ => Py.raise (Py.AttributeError (type_name t) "strip")
        end
      else scan_content rest
  end.

(** The body of the outer loop for one item: the value of [text] after it. *)
Definition scan_item (item : JSON) : Py.exn + string :=
  ty ← get item "type" JNull;
  if eq_str ty "message" then
    role ← get item "role" JNull;
    if eq_str role "assistant" then
      content_list ← get item "content" (JArr []);
      match content_list with
      | JArr parts => scan_content parts
      | _ => Py.ret ""
      end
    else Py.ret ""
  else Py.ret "".

(** The outer loop, over the items in the order it visits them: it stops at
    the first item that leaves [text] non-empty. *)
Fixpoint scan_output (items : list JSON) : Py.exn + string :=
  match items with
  | [] => Py.ret ""
  | item :: rest =>
      text ← scan_item item;
      if bool_decide (text ≠ "") then Py.ret text else scan_output rest
  end.

(** From [output = data.get("output", [])] to the end of the loop. *)
Definition extract_text (data : JSON) : Py.exn + string :=
  output ← get data "output" (JArr []);
  items ← reversed output;
  scan_output items.

Definition running_task : Task :=
  {| status := "running"; response := ""; created_at := None |}.
Definition error_task (msg : string) : Task :=
  {| status := "error"; response := msg; created_at := None |}.
Definition done_task (text : string) : Task :=
  {| status := "done"; response := text; created_at := None |}.

(** [f"{host}/serving-endpoints/{model}/invocations"] *)
Definition mas_url (host model : string) : string :=
  host +:+ "/serving-endpoints/" +:+ model +:+ "/invocations".

(** [{**auth_headers, "Content-Type": "application/json"}] *)
Definition mas_headers (auth_headers : gmap string string) : gmap string string :=
  <["Content-Type" := "application/json"]> auth_headers.

(** The [try] block with its handler: the dict that the worker stores last. *)
Definition mas_result (httpx : Httpx) (messages : list (string * string))
    (host model : string) (auth_headers : gmap string string) : Task :=
  match post httpx (mas_url host model) messages (mas_headers auth_headers) with
  | inl e => error_task (Py.exn_str e)
  | inr resp =>
      if bool_decide (status_code resp ≠ 200%Z)
      then error_task ("MAS returned " +:+ Py.str_of_int (status_code resp))
      else
        match data ← json resp; extract_text data with
        | inl e => error_task (Py.exn_str e)
        | inr text => done_task text
        end
  end.

(** [_run_mas_task(task_id, messages, host, model, auth_headers)] when
    nothing else writes the store while it runs. *)
Definition _run_mas_task (httpx : Httpx) (task_id : string)
    (messages : list (string * string)) (host model : string)
    (auth_headers : gmap string string) (_chat_tasks : Tasks) : Tasks :=
  let tasks1 := <[task_id := running_task]> _chat_tasks in
  <[task_id := mas_result httpx messages host model auth_headers]> tasks1.

(** *** [start_chat] and [poll_chat] *)

(** [[{"role": m.role, "content": m.content} for m in body.messages]] *)
Definition request_messages (body : Models.ChatRequestIn) : list (string * string) :=
  (λ m, (Models.role m, Models.content m)) <$> Models.messages body.

Definition pending_task (now : Q) : Task :=
  {| status := "pending"; response := ""; created_at := Some now |}.

(** What [start_chat] does to the store after it has started the worker
    thread: the sweep, then the write of the pending entry. [now1] and
    [now2] are the values of the two [_time.time()] calls. *)
Definition start_chat_store (task_id : string) (now1 now2 : Q)
    (_chat_tasks : Tasks) : Tasks :=
  <[task_id := pending_task now2]> (_cleanup_old_tasks now1 _chat_tasks).

(** [poll_chat(task_id)]: the answer and the store after the call. *)
Definition poll_chat (task_id : string) (_chat_tasks : Tasks)
  : Models.ChatTaskOut * Tasks :=
  match _chat_tasks !! task_id with
  | None =>
      ({| Models.task_id := task_id; Models.status := "error";
          Models.response := "Task not found" |}, _chat_tasks)
  | Some task =>
      ({| Models.task_id := task_id; Models.status := status task;
          Models.response := response task |}, _chat_tasks)
  end.

(** *** The submitter and its worker as two threads

    [start_chat] starts the worker thread first and touches the store
    afterwards, so the steps of the two threads interleave. Each write of
    the store is one step; the sweep is one step; the worker's [try] block
    up to its write of the final entry is one step (the HTTP call does not
    touch the store). *)

(** The values [start_chat] computes for one request, and the clock and the
    HTTP client it runs against. *)
Record Submission :=
  { sub_httpx : Httpx;
    sub_task_id : string;
    sub_messages : list (string * string);
    sub_host : string;
    sub_model : string;
    sub_auth_headers : gmap string string;
    sub_now1 : Q;
    sub_now2 : Q }.

Inductive SubmitterPc :=
| AtThreadStart      (* before [thread.start()] *)
| AtCleanup          (* before [_cleanup_old_tasks()] *)
| AtPendingWrite     (* before [_chat_tasks[task_id] = {"status": "pending", ..}] *)
| SubmitterReturned.

Inductive WorkerPc :=
| NotStarted
| AtRunningWrite     (* before [_chat_tasks[task_id] = {"status": "running", ..}] *)
| InTry              (* in the [try] block *)
| WorkerReturned.

Record Config :=
  { store : Tasks; submitter : SubmitterPc; worker : WorkerPc }.

Inductive Thread := Submitter | Worker.

Definition initial (_chat_tasks : Tasks) : Config :=
  {| store := _chat_tasks; submitter := AtThreadStart; worker := NotStarted |}.

(** One step of thread [t], when it has one to take. *)
Definition step (r : Submission) (t : Thread) (c : Config) : option Config :=
  match t with
  | Submitter =>
      match submitter c with
      | AtThreadStart =>
          Some {| store := store c; submitter := AtCleanup;
                  worker := AtRunningWrite |}
      | AtCleanup =>
          Some {| store := _cleanup_old_tasks (sub_now1 r) (store c);
                  submitter := AtPendingWrite; worker := worker c |}
      | AtPendingWrite =>
          Some {| store := <[sub_task_id r := pending_task (sub_now2 r)]> (store c);
                  submitter := SubmitterReturned; worker := worker c |}
      | SubmitterReturned => None
      end
  | Worker =>
      match worker c with
      | NotStarted => None
      | AtRunningWrite =>
          Some {| store := <[sub_task_id r := running_task]> (store c);
                  submitter := submitter c; worker := InTry |}
      | InTry =>
          Some {| store :=
                    <[sub_task_id r :=
                        mas_result (sub_httpx r) (sub_messages r) (sub_host r)
                                   (sub_model r) (sub_auth_headers r)]> (store c);
                  submitter := submitter c; worker := WorkerReturned |}
      | WorkerReturned => None
      end
  end.

(** The steps of a schedule, in order. *)
Fixpoint run (r : Submission) (schedule : list Thread) (c : Config)
  : option Config :=
  match schedule with
  | [] => Some c
  | t :: rest =>
      match step r t c with
      | Some c' => run r rest c'
      | None => None
      end
  end.

(** What a poll for the task reports after the steps of [schedule], started
    from the store [_chat_tasks] with the request about to be handled. *)
Definition poll_after (r : Submission) (schedule : list Thread)
    (_chat_tasks : Tasks) : option Models.ChatTaskOut :=
  c ← run r schedule (initial _chat_tasks);
  Some (poll_chat (sub_task_id r) (store c)).1.

(** *** The final answer, in the words of the specification

    The definitions take the test for "this text counts" as a parameter:
    [not_blank] is the test with which the answer is the worker's,
    [not_empty] is the test as the specification words it. *)

Definition not_blank (s : string) : bool := bool_decide (Py.strip s ≠ "").
Definition not_empty (s : string) : bool := bool_decide (s ≠ "").

(** A content part that carries text: its type is ["output_text"] and its
    text is a string that counts. *)
Definition part_text (counts : string → bool) (c : JSON) : option string :=
  match c with
  | JObj items =>
      match lookup_key "type" items, lookup_key "text" items with
      | Some (JStr ty), Some (JStr s) =>
          if bool_decide (ty = "output_text") && counts s then Some s else None
      | _, _ => None
      end
  | _ => None
  end.

(** An output item that is a message of the assistant. *)
Definition is_assistant_message (item : JSON) : bool :=
  match item with
  | JObj items =>
      match lookup_key "type" items, lookup_key "role" items with
      | Some (JStr ty), Some (JStr role) =>
          bool_decide (ty = "message") && bool_decide (role = "assistant")
      | _, _ => false
      end
  | _ => false
  end.

(** The text of an assistant message that has text: that of its first
    part carrying text. *)
Definition message_text (counts : string → bool) (item : JSON) : option string :=
  match item with
  | JObj items =>
      if is_assistant_message item then
        match lookup_key "content" items with
        | Some (JArr parts) => head (omap (part_text counts) parts)
        | _ => None
        end
      else None
  | _ => None
  end.

(** The text of the last output item that is an assistant message with
    text, or the empty string when there is none. *)
Definition answer_where (counts : string → bool) (output : list JSON) : string :=
  default "" (last (omap (message_text counts) output)).

(** The final answer when a text counts if it is not blank. *)
Definition final_answer (output : list JSON) : string :=
  answer_where not_blank output.

(** The final answer when a text counts if it is not empty. *)
Definition claimed_answer (output : list JSON) : string :=
  answer_where not_empty output.

(** A payload on which the scan raises nothing: a dict whose ["output"], if
    any, is a list of dicts; in an assistant message whose ["content"] is a
    list, every part is a dict, and the ["text"] of an ["output_text"]
    part, if any, is a string. *)
Definition wf_part (c : JSON) : bool :=
  match c with
  | JObj items =>
      match lookup_key "type" items with
      | Some (JStr ty) =>
          if bool_decide (ty = "output_text") then
            match lookup_key "text" items with
            | None | Some (JStr _) => true
            | _ => false
            end
          else true
      | _ => true
      end
  | _ => false
  end.

Definition wf_item (item : JSON) : bool :=
  match item with
  | JObj items =>
      if is_assistant_message item then
        match lookup_key "content" items with
        | Some (JArr parts) => forallb wf_part parts
        | _ => true
        end
      else true
  | _ => false
  end.

Definition wf_payload (data : JSON) : bool :=
  match data with
  | JObj items =>
      match lookup_key "output" items with
      | None => true
      | Some (JArr output) => forallb wf_item output
      | Some _ => false
      end
  | _ => false
  end.

(** The ["output"] list of a payload. *)
Definition output_of (data : JSON) : list JSON :=
  match data with
  | JObj items =>
      match lookup_key "output" items with
      | Some (JArr output) => output
      | _ => []
      end
  | _ => []
  end.

End Router.

(** ** String tests used by the HTTP layer *)

Module PyStr.

(** [s.startswith(p)] *)
Fixpoint startswith (s p : string) : bool :=
  match p, s with
  | EmptyString, _ => true
  | String _ _, EmptyString => false
  | String a p', String b s' => bool_decide (a = b) && startswith s' p'
  end.

(** [sub in s] *)
Fixpoint str_in (sub s : string) : bool :=
  startswith s sub ||
  match s with
  | EmptyString => false
  | String _ s' => str_in sub s'
  end.

(** [path.split("/")[-1]]: what follows the last slash, the whole string
    when there is none. *)
Fixpoint last_segment (path : string) : string :=
  match path with
  | EmptyString => EmptyString
  | String _ rest => if str_in "/" path then last_segment rest else path
  end.

End PyStr.

(** ** [backend/core.py]: the 404 handler and the static files *)

Module CoreWeb.

(** What the handler reads of the request: the method, [request.url.path]
    and the [accept] header if there is one. *)
Record Request :=
  { method : string; path : string; accept : option string }.

(** A [StarletteHTTPException]. *)
Record HTTPException := { status_code : Z; detail : string }.

Inductive HandlerResponse :=
| IndexHtml                                  (* [FileResponse(dist_dir / "index.html")] *)
| JSONResponse (detail : string) (status_code : Z).
                                             (* [JSONResponse({"detail": ..}, status_code=..)] *)

(** [http_exception_handler(request, exc)] of [_add_not_found_handler];
    [api_prefix] is the constant of [_metadata]. *)
Definition http_exception_handler (api_prefix : string) (request : Request)
    (exc : HTTPException) : HandlerResponse :=
  let json := JSONResponse (detail exc) (status_code exc) in
  if bool_decide (status_code exc = 404%Z) then
    let accept := default "" (accept request) in
    let is_api := PyStr.startswith (path request) api_prefix in
    let is_get_page_nav :=
      bool_decide (method request = "GET") && PyStr.str_in "text/html" accept in
    let looks_like_asset := PyStr.str_in "." (PyStr.last_segment (path request)) in
    if negb is_api && is_get_page_nav && negb looks_like_asset
    then IndexHtml else json
  else json.



End CoreWeb.

(** ** [backend/app.py]: the cache-control middleware *)

Module App.

(** A response as the middleware sees it. The headers are keyed by their
    lower-cased names, the way Starlette's [MutableHeaders] stores and
    replaces them. *)
Record Response :=
  { status_code : Z; headers : gmap string string; body : string }.

(** [CacheControlMiddleware.dispatch], after [call_next(request)] has
    returned [response]. *)
Definition dispatch (method path : string) (response : Response) : Response :=
  if bool_decide (method = "GET") && PyStr.startswith path "/api/"
     && bool_decide (status_code response = 200%Z)
     && negb (PyStr.str_in "/current-user" path)
  then {| status_code := status_code response;
          headers := <["cache-control" :=
                         "public, max-age=120, stale-while-revalidate=300"]>
                       (headers response);
          body := body response |}
  else response.

End App.

(** ** [backend/router.py]: the DC inventory endpoint *)

Module Endpoints.

Import Core.

(** [DcInventoryOut] of [backend/models.py]. *)
Record DcInventoryOut :=
  { product_id : string;
    product_name : string;
    dc_id : string;
    dc_name : string;
    allocated_qty : Z;
    safety_stock : Z;
    excess_qty : Z;
    total_qty : Z;
    snapshot_date : string }.

(** [_schema(config)]: [f"{config.catalog}.{config.schema_name}"] *)
Definition _schema (catalog schema_name : string) : string :=
  catalog +:+ "." +:+ schema_name.

(** The line feed. *)
Definition nl : string := String "010" EmptyString.

(** [f"AND i.dc_id = '{dc_id}'" if dc_id else ""]: [None] and the empty
    string both count as no filter. *)
Definition dc_inventory_where (dc_id : option string) : string :=
  match dc_id with
  | Some d => if bool_decide (d ≠ "") then "AND i.dc_id = '" +:+ d +:+ "'" else ""
  | None => ""
  end.

(** The statement of [list_dc_inventory], line by line as the f-string has
    it. *)
Definition dc_inventory_query (s : string) (dc_id : option string) : string :=
  let where_ := dc_inventory_where dc_id in
  nl +:+
  "        SELECT i.product_id, p.name as product_name," +:+ nl +:+
  "               i.dc_id, s.location_name as dc_name," +:+ nl +:+
  "               i.allocated_qty, i.safety_stock, i.excess_qty, i.total_qty," +:+ nl +:+
  "               CAST(i.snapshot_date AS STRING) as snapshot_date" +:+ nl +:+
  "        FROM " +:+ s +:+ ".fact_dc_inventory i" +:+ nl +:+
  "        JOIN " +:+ s +:+ ".dim_product p ON i.product_id = p.product_id" +:+ nl +:+
  "        JOIN " +:+ s +:+ ".dim_storage_location s ON i.dc_id = s.location_id" +:+ nl +:+
  "        WHERE i.snapshot_date = (SELECT MAX(snapshot_date) FROM " +:+ s +:+ ".fact_dc_inventory)" +:+ nl +:+
  "        " +:+ where_ +:+ nl +:+
  "        ORDER BY i.total_qty DESC" +:+ nl +:+
  "        LIMIT 10" +:+ nl +:+
  "    ".

(** [str(r.get(k, ""))]: a missing column gives the default, a NULL cell
    gives [str(None)]. *)
Definition str_cell (r : Row) (k : string) : string :=
  match r !! Some k with
  | None => ""
  | Some None => "None"
  | Some (Some v) => v
  end.

(** [int(r.get(k, 0))]: a missing column gives [int(0)], a NULL cell makes
    [int] raise a TypeError, a text cell is parsed by [int], here
    [int_of_str]. *)
Definition int_cell (int_of_str : string → Py.exn + Z) (r : Row) (k : string)
  : Py.exn + Z :=
  match r !! Some k with
  | None => Py.ret 0%Z
  | Some None =>
      Py.raise (Py.TypeError
        "int() argument must be a string, a bytes-like object or a real number, not 'NoneType'")
  | Some (Some v) => int_of_str v
  end.

(** [DcInventoryOut(product_id=str(r.get("product_id", "")), ...)] for one
    row; the arguments are evaluated in the order they are written. *)
Definition to_dc_inventory (int_of_str : string → Py.exn + Z) (r : Row)
  : Py.exn + DcInventoryOut :=
  allocated ← int_cell int_of_str r "allocated_qty";
  safety ← int_cell int_of_str r "safety_stock";
  excess ← int_cell int_of_str r "excess_qty";
  total ← int_cell int_of_str r "total_qty";
  Py.ret {| product_id := str_cell r "product_id";
            product_name := str_cell r "product_name";
            dc_id := str_cell r "dc_id";
            dc_name := str_cell r "dc_name";
            allocated_qty := allocated;
            safety_stock := safety;
            excess_qty := excess;
            total_qty := total;
            snapshot_date := str_cell r "snapshot_date" |}.

(** The list comprehension over the rows: the first row that raises ends
    it. *)
Fixpoint to_dc_inventory_list (int_of_str : string → Py.exn + Z)
    (rows : list Row) : Py.exn + list DcInventoryOut :=
  match rows with
  | [] => Py.ret []
  | r :: rest =>
      item ← to_dc_inventory int_of_str r;
      items ← to_dc_inventory_list int_of_str rest;
      Py.ret (item :: items)
  end.

(** [list_dc_inventory(ws, config, dc_id)], with [now] the time of its call
    of [execute_sql]. *)
Definition list_dc_inventory (int_of_str : string → Py.exn + Z)
    (ws : WorkspaceClient) (config : AppConfig) (catalog schema_name : string)
    (dc_id : option string) (now : Q) (σ : State)
  : (Py.exn + list DcInventoryOut) * State :=
  let s := _schema catalog schema_name in
  let called := execute_sql ws config (dc_inventory_query s dc_id)
                  SQL_CACHE_TTL now σ in
  (rows ← called.1; to_dc_inventory_list int_of_str rows, called.2).

End Endpoints.

(** * Sample inputs *)

Module Samples.

Import Core.

Definition config : AppConfig := {| warehouse_id := "b9771bcf4a3a5399" |}.

Definition succeeded_status : StatementStatus :=
  {| error := None; state := Some SUCCEEDED |}.

(** A warehouse that answers every statement with the one row [{"n": "1"}]. *)
Definition one_row_response : StatementResponse :=
  {| manifest := Some {| schema := Some {| columns := Some [{| name := Some "n" |}] |} |};
     result := Some {| data_array := Some [[Some "1"]] |};
     status := Some succeeded_status |}.

Definition ws_one_row : WorkspaceClient :=
  {| execute_statement := λ _ _, inr one_row_response |}.

(** A warehouse that answers every statement successfully with no rows. *)
Definition no_rows_response : StatementResponse :=
  {| manifest := Some {| schema := Some {| columns := Some [{| name := Some "n" |}] |} |};
     result := Some {| data_array := Some [] |};
     status := Some succeeded_status |}.

Definition ws_no_rows : WorkspaceClient :=
  {| execute_statement := λ _ _, inr no_rows_response |}.

(** A warehouse on which every statement fails. *)
Definition failed_response : StatementResponse :=
  {| manifest := None; result := None;
     status := Some {| error := Some {| message := Some "warehouse stopped" |};
                       state := Some FAILED |} |}.

Definition ws_failing : WorkspaceClient :=
  {| execute_statement := λ _ _, inr failed_response |}.

Definition empty_state : State := {| _sql_cache := ∅; executed := [] |}.

Definition one_row : list Row := [ {[ Some "n" := Some "1" ]} ].

(** The state after ["SELECT 1"] was cached at time 1000. *)
Definition cached_state : State :=
  {| _sql_cache := {[ "SELECT 1" := (1000%Q, one_row) ]};
     executed := ["SELECT 1"] |}.

(** Inputs of the chat endpoints. *)

Import Json Router.

Definition messages : list (string * string) :=
  request_messages
    {| Models.messages := [{| Models.role := "user"; Models.content := "status?" |}] |}.
Definition host : string := "https://adb-7405613286317055.15.azuredatabricks.net".
Definition model : string := "mas-5fba20e2-endpoint".
Definition auth_headers : gmap string string :=
  {[ "Authorization" := "Bearer dapi0123" ]}.

(** An endpoint that answers 503 with a body that is not JSON. *)
Definition response_503 : HttpResponse :=
  {| status_code := 503; text := "Service Unavailable";
     json := inl (Py.Exn "JSONDecodeError"
                    "Expecting value: line 1 column 1 (char 0)") |}.

Definition httpx_503 : Httpx := {| post := λ _ _ _, inr response_503 |}.

(** An endpoint that cannot be reached: [httpx.post] raises at once. *)
Definition httpx_refused : Httpx :=
  {| post := λ _ _ _, inl (Py.Exn "ConnectError" "[Errno 111] Connection refused") |}.

Definition assistant_message (t : string) : JSON :=
  JObj [("type", JStr "message"); ("role", JStr "assistant");
        ("content", JArr [JObj [("type", JStr "output_text"); ("text", JStr t)]])].

Definition function_call : JSON :=
  JObj [("type", JStr "function_call"); ("name", JStr "inventory_lookup");
        ("arguments", JStr "{}")].

(** A payload whose last assistant message has the text ["42 units"]. *)
Definition payload_42 : JSON :=
  JObj [("output", JArr [assistant_message "Let me check the inventory.";
                         function_call;
                         assistant_message "42 units"])].

Definition response_42 : HttpResponse :=
  {| status_code := 200; text := "{..}"; json := inr payload_42 |}.

Definition httpx_42 : Httpx := {| post := λ _ _ _, inr response_42 |}.

(** A payload whose last assistant message has a text of three spaces. *)
Definition payload_blank : JSON :=
  JObj [("output", JArr [assistant_message "hello"; assistant_message "   "])].

Definition response_blank : HttpResponse :=
  {| status_code := 200; text := "{..}"; json := inr payload_blank |}.

Definition httpx_blank : Httpx := {| post := λ _ _ _, inr response_blank |}.

(** A store that holds one task, ["t1"], submitted at time 1700000000. *)
Definition one_pending : Tasks := {[ "t1" := pending_task 1700000000 ]}.

(** The submission of task ["t1"] at time 1700000000 against the endpoint
    that cannot be reached. *)
Definition submission_refused : Submission :=
  {| sub_httpx := httpx_refused; sub_task_id := "t1"; sub_messages := messages;
     sub_host := host; sub_model := model; sub_auth_headers := auth_headers;
     sub_now1 := 1700000000; sub_now2 := 1700000000 |}.

End Samples.

(** * Further sample inputs *)

Module MoreSamples.

Import Core.

(** A warehouse whose client raises on every statement. *)
Definition timeout_error : Py.exn :=
  Py.Exn "TimeoutError" "The read operation timed out".

Definition ws_raising : WorkspaceClient :=
  {| execute_statement := λ _ _, inl timeout_error |}.

(** A successful response with one data row and no manifest. *)
Definition no_manifest_response : StatementResponse :=
  {| manifest := None;
     result := Some {| data_array := Some [[Some "1"]] |};
     status := Some Samples.succeeded_status |}.

Definition ws_no_manifest : WorkspaceClient :=
  {| execute_statement := λ _ _, inr no_manifest_response |}.

(** A successful response with one data row and a manifest without schema. *)
Definition no_schema_response : StatementResponse :=
  {| manifest := Some {| schema := None |};
     result := Some {| data_array := Some [[Some "1"]] |};
     status := Some Samples.succeeded_status |}.

Definition ws_no_schema : WorkspaceClient :=
  {| execute_statement := λ _ _, inr no_schema_response |}.

(** A successful response with the columns [id], [name] and two rows, the
    second with a NULL name. *)
Definition two_rows_manifest : ResultManifest :=
  {| schema := Some {| columns := Some [{| name := Some "id" |};
                                        {| name := Some "name" |}] |} |}.

Definition two_rows_data : list (list (option string)) :=
  [[Some "7"; Some "Halifax"]; [Some "8"; None]].

Definition two_rows_response : StatementResponse :=
  {| manifest := Some two_rows_manifest;
     result := Some {| data_array := Some two_rows_data |};
     status := Some Samples.succeeded_status |}.

Definition ws_two_rows : WorkspaceClient :=
  {| execute_statement := λ _ _, inr two_rows_response |}.

(** Inputs of the chat endpoints. *)

Import Json Router.

(** A store with a task stamped 1000 seconds before 1700000000, a task
    stamped at 1700000000 and a worker's entry without a stamp. *)
Definition three_tasks : Tasks :=
  {[ "old" := pending_task 1699999000;
     "new" := pending_task 1700000000;
     "worker" := done_task "42 units" ]}.

(** An endpoint that answers 200 with a JSON list. *)
Definition response_list : HttpResponse :=
  {| status_code := 200; text := "[]"; json := inr (JArr []) |}.

Definition httpx_list : Httpx := {| post := λ _ _ _, inr response_list |}.

(** An endpoint that answers 200 with a body that is not JSON. *)
Definition response_not_json : HttpResponse :=
  {| status_code := 200; text := "<html>";
     json := inl (Py.Exn "JSONDecodeError"
                    "Expecting value: line 1 column 1 (char 0)") |}.

Definition httpx_not_json : Httpx := {| post := λ _ _ _, inr response_not_json |}.

(** A payload with a number among the output items, before the answer. *)
Definition payload_bad_first : JSON :=
  JObj [("output", JArr [JInt 5; Samples.assistant_message "42 units";
                         Samples.function_call])].

Definition response_bad_first : HttpResponse :=
  {| status_code := 200; text := "{..}"; json := inr payload_bad_first |}.

Definition httpx_bad_first : Httpx := {| post := λ _ _ _, inr response_bad_first |}.

(** A payload with a number among the output items, after the answer. *)
Definition payload_bad_last : JSON :=
  JObj [("output", JArr [Samples.assistant_message "42 units"; JInt 5;
                         Samples.function_call])].

Definition response_bad_last : HttpResponse :=
  {| status_code := 200; text := "{..}"; json := inr payload_bad_last |}.

Definition httpx_bad_last : Httpx := {| post := λ _ _ _, inr response_bad_last |}.

End MoreSamples.

(** * Sample inputs of the DC inventory endpoint *)

Module EndpointSamples.

Import Core Endpoints.

(** [int] on a text of decimal digits; any other text is refused, as [int]
    refuses what is not a number. *)
Fixpoint digits_value (acc : Z) (s : string) : option Z :=
  match s with
  | EmptyString => Some acc
  | String c rest =>
      let n := Z.of_N (N_of_ascii c) in
      if bool_decide (48 ≤ n ≤ 57)%Z
      then digits_value (10 * acc + (n - 48)) rest
      else None
  end.

Definition int_of_digits (s : string) : Py.exn + Z :=
  match s with
  | EmptyString => inl (Py.Exn "ValueError" "invalid literal for int() with base 10: ''")
  | _ =>
      match digits_value 0 s with
      | Some n => inr n
      | None => inl (Py.Exn "ValueError" "invalid literal for int() with base 10")
      end
  end.

(** A row with every column of the statement. *)
Definition full_row : Row :=
  list_to_map
    [(Some "product_id", Some "P-17"); (Some "product_name", Some "Oat milk 1L");
     (Some "dc_id", Some "DC1"); (Some "dc_name", Some "Halifax DC");
     (Some "allocated_qty", Some "120"); (Some "safety_stock", Some "40");
     (Some "excess_qty", Some "0"); (Some "total_qty", Some "160");
     (Some "snapshot_date", Some "2025-01-31")].

(** A row with a NULL product name. *)
Definition null_name_row : Row := <[Some "product_name" := None]> full_row.

(** A row with a NULL safety stock. *)
Definition null_qty_row : Row := <[Some "safety_stock" := None]> full_row.

(** The state in which the unfiltered statement for the schema ["cat.sch"]
    was cached at time 1000 with one row. *)
Definition inventory_cached : State :=
  {| _sql_cache :=
       {[ Py.strip (dc_inventory_query (_schema "cat" "sch") None)
          := (1000%Q, [full_row]) ]};
     executed := [dc_inventory_query (_schema "cat" "sch") None] |}.

End EndpointSamples.

(** * Properties of the query cache *)

Section CacheProperties.

Import Core.

Lemma Qltb_lt (x y : Q) : Py.Qltb x y = true ↔ (x < y)%Q.
Proof.
  unfold Py.Qltb. rewrite Qlt_alt.
  destruct (x ?= y)%Q; split; congruence.
Qed.

Lemma Qltb_ge (x y : Q) : Py.Qltb x y = false ↔ (y <= x)%Q.
Proof.
  rewrite <- not_true_iff_false, Qltb_lt. split.
  - apply Qnot_lt_le.
  - intros Hle Hlt. exact (Qle_not_lt _ _ Hle Hlt).
Qed.

(** The lookup at the head of [execute_sql] reads the cache only. *)
Lemma fresh_rows_cache k ttl now (σ σ' : State) :
  _sql_cache σ' = _sql_cache σ →
  fresh_rows k ttl now σ' = fresh_rows k ttl now σ.
Proof. unfold fresh_rows. by intros ->. Qed.

Lemma fresh_rows_stored k ttl now now0 rows (σ : State) :
  _sql_cache σ !! k = Some (now0, rows) →
  (now - now0 < inject_Z ttl)%Q →
  fresh_rows k ttl now σ = Some rows.
Proof.
  intros Hk Hlt. unfold fresh_rows. rewrite Hk.
  apply Qltb_lt in Hlt. by rewrite Hlt.
Qed.

Lemma fresh_rows_expired k ttl now now0 rows (σ : State) :
  _sql_cache σ !! k = Some (now0, rows) →
  (inject_Z ttl <= now - now0)%Q →
  fresh_rows k ttl now σ = None.
Proof.
  intros Hk Hle. unfold fresh_rows. rewrite Hk.
  apply Qltb_ge in Hle. by rewrite Hle.
Qed.

(** A call served from the cache changes nothing and runs nothing. *)
Lemma execute_sql_hit ws config q ttl now (σ : State) rows :
  fresh_rows (Py.strip q) ttl now σ = Some rows →
  execute_sql ws config q ttl now σ = (inr rows, σ).
Proof. intros H. unfold execute_sql. by rewrite H. Qed.

(** A call not served from the cache sends the statement to the warehouse. *)
Lemma execute_sql_miss ws config q ttl now (σ : State) :
  fresh_rows (Py.strip q) ttl now σ = None →
  execute_sql ws config q ttl now σ =
    match execute_statement ws (warehouse_id config) q with
    | inl e => (inl e, (call_execute_statement ws config q σ).2)
    | inr response =>
        handle_response (Py.strip q) now response
          (call_execute_statement ws config q σ).2
    end.
Proof.
  intros H. unfold execute_sql. rewrite H. simpl.
  by destruct (execute_statement ws (warehouse_id config) q).
Qed.

(** The record of executed statements: a call adds its query or nothing. *)
Lemma handle_response_executed k now response (σ : State) :
  executed (handle_response k now response σ).2 = executed σ.
Proof.
  unfold handle_response.
  destruct (not_succeeded response); [done|].
  destruct (manifest_and_data response) as [[m data]|]; [|done].
  by destruct (column_names m).
Qed.

Lemma execute_sql_executed ws config q ttl now (σ : State) :
  executed (execute_sql ws config q ttl now σ).2 =
    match fresh_rows (Py.strip q) ttl now σ with
    | Some _ => executed σ
    | None => (executed σ ++ [q])%list
    end.
Proof.
  destruct (fresh_rows (Py.strip q) ttl now σ) as [rows|] eqn:Hf.
  - by rewrite (execute_sql_hit _ _ _ _ _ _ _ Hf).
  - rewrite (execute_sql_miss _ _ _ _ _ _ Hf).
    destruct (execute_statement ws (warehouse_id config) q); [done|].
    by rewrite handle_response_executed.
Qed.

Lemma app_singleton_ne {A} (l : list A) (x : A) : l ≠ (l ++ [x])%list.
Proof.
  intros H. apply (f_equal length) in H. rewrite length_app in H. simpl in H. lia.
Qed.

(** The call ran the backing query exactly when its record grew. *)
Lemma execute_sql_ran ws config q ttl now (σ : State) :
  executed (execute_sql ws config q ttl now σ).2 = (executed σ ++ [q])%list →
  fresh_rows (Py.strip q) ttl now σ = None.
Proof.
  rewrite execute_sql_executed.
  destruct (fresh_rows (Py.strip q) ttl now σ); [|done].
  intros H. by apply app_singleton_ne in H.
Qed.

End CacheProperties.

Section CacheClaims.

Import Core.

(** What a successful response stores is what the call returns. *)
Lemma handle_response_stores k now response (σ σ' : State) rows :
  not_succeeded response = false →
  handle_response k now response σ = (inr rows, σ') →
  σ' = cache_store k now rows σ.
Proof.
  intros Hok. unfold handle_response. rewrite Hok.
  destruct (manifest_and_data response) as [[m data]|].
  - destruct (column_names m); intros [= <- <-]; done.
  - intros [= <- <-]. done.
Qed.

Lemma manifest_and_data_no_rows response :
  data_rows response = [] → manifest_and_data response = None.
Proof.
  unfold data_rows, manifest_and_data.
  destruct (manifest response) as [m|]; destruct (result response) as [r|];
    try done.
  destruct (data_array r) as [[|row rows]|]; done.
Qed.

(** C1. When a call of [execute_sql] with query [q1] runs the backing query,
    the execution succeeds and the call returns [rows], the entry
    [(now1, rows)] is stored under the trimmed query, and a second call
    whose query has the same trimmed text, made at a time [now2] with
    [now2 - now1 < ttl], returns the same [rows] and leaves the state as it
    is: over the two calls the backing query ran once, for [q1], whatever
    warehouse the second call is given. The bound [ttl] need not be
    positive for this. *)
Theorem execute_sql_hit_within_ttl ws1 ws2 config q1 q2 ttl now1 now2
    (σ σ1 : State) response rows :
  Py.strip q2 = Py.strip q1 →
  execute_statement ws1 (warehouse_id config) q1 = inr response →
  not_succeeded response = false →
  execute_sql ws1 config q1 ttl now1 σ = (inr rows, σ1) →
  executed σ1 = (executed σ ++ [q1])%list →
  (now2 - now1 < inject_Z ttl)%Q →
  _sql_cache σ1 !! Py.strip q1 = Some (now1, rows)
  ∧ execute_sql ws2 config q2 ttl now2 σ1 = (inr rows, σ1)
  ∧ executed (execute_sql ws2 config q2 ttl now2 σ1).2 = (executed σ ++ [q1])%list.
Proof.
  intros Hkey Hexec Hok Hcall Hran Hage.
  assert (Hmiss : fresh_rows (Py.strip q1) ttl now1 σ = None).
  { apply (execute_sql_ran ws1 config). by rewrite Hcall. }
  rewrite (execute_sql_miss _ _ _ _ _ _ Hmiss), Hexec in Hcall.
  apply (handle_response_stores _ _ _ _ _ _ Hok) in Hcall.
  assert (Hstored : _sql_cache σ1 !! Py.strip q1 = Some (now1, rows)).
  { rewrite Hcall. simpl. apply lookup_insert_eq. }
  assert (Hhit : execute_sql ws2 config q2 ttl now2 σ1 = (inr rows, σ1)).
  { apply execute_sql_hit. rewrite Hkey.
    by apply (fresh_rows_stored _ _ _ now1). }
  split; [done|]. split; [done|]. by rewrite Hhit.
Qed.

Lemma execute_sql_hit_within_ttl_witness :
  let σ1 := Samples.cached_state in
  _sql_cache σ1 !! Py.strip "SELECT 1" = Some (1000%Q, Samples.one_row)
  ∧ execute_sql Samples.ws_failing Samples.config "  SELECT 1
" 300 1001 σ1
    = (inr Samples.one_row, σ1)
  ∧ executed (execute_sql Samples.ws_failing Samples.config "  SELECT 1
" 300 1001 σ1).2 = ([] ++ ["SELECT 1"])%list.
Proof.
  apply (execute_sql_hit_within_ttl Samples.ws_one_row Samples.ws_failing
           Samples.config "SELECT 1" _ 300 1000 1001 Samples.empty_state
           Samples.cached_state Samples.one_row_response Samples.one_row).
  - vm_compute. reflexivity.
  - reflexivity.
  - reflexivity.
  - vm_compute. reflexivity.
  - reflexivity.
  - reflexivity.
Defined.

(** C2. When the warehouse answers the query with a state other than
    SUCCEEDED, the call of [execute_sql] raises nothing and leaves the cache
    map exactly as it was; if the call did run the backing query, it returns
    the empty list. Every entry is as servable after the call as before: for
    any key, bound and time, the cache lookup gives the same answer, and an
    entry stored under the query's own key is still there. *)
Theorem execute_sql_failure_keeps_cache ws config q ttl now (σ : State) response :
  execute_statement ws (warehouse_id config) q = inr response →
  not_succeeded response = true →
  ∃ rows,
    (execute_sql ws config q ttl now σ).1 = inr rows
    ∧ _sql_cache (execute_sql ws config q ttl now σ).2 = _sql_cache σ
    ∧ (executed (execute_sql ws config q ttl now σ).2 = (executed σ ++ [q])%list →
       rows = [])
    ∧ (∀ k ttl' now',
         fresh_rows k ttl' now' (execute_sql ws config q ttl now σ).2
         = fresh_rows k ttl' now' σ)
    ∧ (∀ entry, _sql_cache σ !! Py.strip q = Some entry →
         _sql_cache (execute_sql ws config q ttl now σ).2 !! Py.strip q = Some entry).
Proof.
  intros Hexec Hfail.
  destruct (fresh_rows (Py.strip q) ttl now σ) as [cached|] eqn:Hf.
  - exists cached. rewrite (execute_sql_hit _ _ _ _ _ _ _ Hf). simpl.
    repeat split; try done.
    intros H. by apply app_singleton_ne in H.
  - exists []. rewrite (execute_sql_miss _ _ _ _ _ _ Hf), Hexec.
    unfold handle_response. rewrite Hfail. simpl.
    repeat split; try done.
Qed.

Lemma execute_sql_failure_keeps_cache_witness :
  ∃ rows,
    (execute_sql Samples.ws_failing Samples.config "SELECT 1" 300 1400
       Samples.cached_state).1 = inr rows
    ∧ _sql_cache (execute_sql Samples.ws_failing Samples.config "SELECT 1" 300 1400
                    Samples.cached_state).2 = _sql_cache Samples.cached_state
    ∧ (executed (execute_sql Samples.ws_failing Samples.config "SELECT 1" 300 1400
                   Samples.cached_state).2
       = (executed Samples.cached_state ++ ["SELECT 1"])%list → rows = [])
    ∧ (∀ k ttl' now',
         fresh_rows k ttl' now'
           (execute_sql Samples.ws_failing Samples.config "SELECT 1" 300 1400
              Samples.cached_state).2
         = fresh_rows k ttl' now' Samples.cached_state)
    ∧ (∀ entry, _sql_cache Samples.cached_state !! Py.strip "SELECT 1" = Some entry →
         _sql_cache (execute_sql Samples.ws_failing Samples.config "SELECT 1" 300 1400
                       Samples.cached_state).2 !! Py.strip "SELECT 1" = Some entry).
Proof.
  apply (execute_sql_failure_keeps_cache Samples.ws_failing Samples.config
           "SELECT 1" 300 1400 Samples.cached_state Samples.failed_response).
  - reflexivity.
  - reflexivity.
Defined.

(** C8. When the cache holds an entry under the trimmed text of the query
    and at least [ttl] has passed since the entry's timestamp
    ([ttl <= now - cached_at]), the call of [execute_sql] sends the query to
    the warehouse again, and its result is the one the same call gives when
    the entry is not in the cache at all: the stored rows are not served. *)
Theorem execute_sql_reexecutes_after_ttl ws config q ttl now (σ : State)
    cached_at cached_rows :
  _sql_cache σ !! Py.strip q = Some (cached_at, cached_rows) →
  (inject_Z ttl <= now - cached_at)%Q →
  executed (execute_sql ws config q ttl now σ).2 = (executed σ ++ [q])%list
  ∧ (execute_sql ws config q ttl now σ).1
    = (execute_sql ws config q ttl now
         {| _sql_cache := delete (Py.strip q) (_sql_cache σ);
            executed := executed σ |}).1.
Proof.
  intros Hk Hold.
  pose proof (fresh_rows_expired _ _ _ _ _ _ Hk Hold) as Hf.
  split.
  - by rewrite execute_sql_executed, Hf.
  - rewrite (execute_sql_miss _ _ _ _ _ _ Hf).
    rewrite execute_sql_miss.
    2:{ unfold fresh_rows. simpl. by rewrite lookup_delete_eq. }
    destruct (execute_statement ws (warehouse_id config) q) as [e|response];
      [done|].
    unfold handle_response. simpl.
    destruct (not_succeeded response); [done|].
    destruct (manifest_and_data response) as [[m data]|]; [|done].
    by destruct (column_names m).
Qed.

Lemma execute_sql_reexecutes_after_ttl_witness :
  executed (execute_sql Samples.ws_no_rows Samples.config "SELECT 1" 300 1300
              Samples.cached_state).2
  = (executed Samples.cached_state ++ ["SELECT 1"])%list
  ∧ (execute_sql Samples.ws_no_rows Samples.config "SELECT 1" 300 1300
       Samples.cached_state).1
    = (execute_sql Samples.ws_no_rows Samples.config "SELECT 1" 300 1300
         {| _sql_cache := delete (Py.strip "SELECT 1") (_sql_cache Samples.cached_state);
            executed := executed Samples.cached_state |}).1.
Proof.
  apply (execute_sql_reexecutes_after_ttl Samples.ws_no_rows Samples.config
           "SELECT 1" 300 1300 Samples.cached_state 1000 Samples.one_row).
  - reflexivity.
  - vm_compute. discriminate.
Defined.

(** C9. When a call of [execute_sql] runs the backing query and the
    execution succeeds with zero rows, the call returns the empty list and
    stores under the trimmed query the entry made of the call's timestamp
    and the empty list; a later call whose query has the same trimmed text,
    made within [ttl] of that timestamp, returns the empty list from that
    entry and leaves the state, the record of executed statements included,
    as it is. *)
Theorem execute_sql_caches_zero_rows ws1 ws2 config q1 q2 ttl now1 now2
    (σ : State) response :
  executed (execute_sql ws1 config q1 ttl now1 σ).2 = (executed σ ++ [q1])%list →
  execute_statement ws1 (warehouse_id config) q1 = inr response →
  not_succeeded response = false →
  data_rows response = [] →
  Py.strip q2 = Py.strip q1 →
  (now2 - now1 < inject_Z ttl)%Q →
  let σ1 := (execute_sql ws1 config q1 ttl now1 σ).2 in
  (execute_sql ws1 config q1 ttl now1 σ).1 = inr []
  ∧ _sql_cache σ1 !! Py.strip q1 = Some (now1, [])
  ∧ execute_sql ws2 config q2 ttl now2 σ1 = (inr [], σ1).
Proof.
  intros Hran Hexec Hok Hzero Hkey Hage σ1. subst σ1.
  apply execute_sql_ran in Hran.
  rewrite (execute_sql_miss _ _ _ _ _ _ Hran), Hexec.
  unfold handle_response.
  rewrite Hok, (manifest_and_data_no_rows _ Hzero). simpl.
  assert (Hstored :
    <[Py.strip q1 := (now1, ([] : list Row))]> (_sql_cache σ) !! Py.strip q1
    = Some (now1, [])) by apply lookup_insert_eq.
  split; [done|]. split; [done|].
  apply execute_sql_hit. rewrite Hkey.
  by apply (fresh_rows_stored _ _ _ now1).
Qed.

Lemma execute_sql_caches_zero_rows_witness :
  let σ1 := (execute_sql Samples.ws_no_rows Samples.config "SELECT 1" 300 1000
               Samples.empty_state).2 in
  (execute_sql Samples.ws_no_rows Samples.config "SELECT 1" 300 1000
     Samples.empty_state).1 = inr []
  ∧ _sql_cache σ1 !! Py.strip "SELECT 1" = Some (1000%Q, [])
  ∧ execute_sql Samples.ws_one_row Samples.config " SELECT 1 " 300 1299 σ1
    = (inr [], σ1).
Proof.
  apply (execute_sql_caches_zero_rows Samples.ws_no_rows Samples.ws_one_row
           Samples.config "SELECT 1" " SELECT 1 " 300 1000 1299
           Samples.empty_state Samples.no_rows_response).
  - reflexivity.
  - reflexivity.
  - reflexivity.
  - reflexivity.
  - reflexivity.
  - reflexivity.
Defined.

End CacheClaims.

(** * Properties of the chat task store *)

Section ScanProperties.

Import Json Router.

Lemma not_blank_nonempty s : not_blank s = true → s ≠ "".
Proof. intros H ->. vm_compute in H. discriminate. Qed.

Lemma part_text_nonempty c s : part_text not_blank c = Some s → s ≠ "".
Proof.
  destruct c as [| | | | |l|items]; try discriminate. simpl.
  destruct (lookup_key "type" items) as [[| | | |ty| |]|]; try discriminate.
  destruct (lookup_key "text" items) as [[| | | |t| |]|]; try discriminate.
  destruct (bool_decide (ty = "output_text")); simpl; [|discriminate].
  destruct (not_blank t) eqn:Ht; [|discriminate].
  intros [= <-]. by apply not_blank_nonempty.
Qed.

Lemma message_text_nonempty item s :
  message_text not_blank item = Some s → s ≠ "".
Proof.
  destruct item as [| | | | |l|items]; try discriminate.
  unfold message_text.
  destruct (is_assistant_message (JObj items)); [|discriminate].
  destruct (lookup_key "content" items) as [[| | | | |parts|]|]; try discriminate.
  intros Hhead. apply head_Some_elem_of in Hhead.
  apply list_elem_of_omap in Hhead as (c & _ & Hc).
  by apply part_text_nonempty in Hc.
Qed.

(** On well-formed parts the inner loop raises nothing and finds the text of
    the first part that carries text. *)
Lemma scan_content_wf parts :
  forallb wf_part parts = true →
  scan_content parts = inr (default "" (head (omap (part_text not_blank) parts))).
Proof.
  induction parts as [|c rest IH]; [done|].
  intros [Hc Hrest]%andb_prop. specialize (IH Hrest).
  destruct c as [| | | | |l|items]; try discriminate.
  unfold wf_part in Hc.
  cbn [scan_content omap list_omap get part_text mbind Py.exn_bind Py.ret].
  destruct (lookup_key "type" items) as [[| | | |ty| |]|];
    destruct (lookup_key "text" items) as [[| | | |t| |]|];
    cbn [from_option id eq_str]; unfold not_blank;
    repeat case_bool_decide; cbn [andb head default];
    first [exact IH | discriminate | done].
Qed.

(** On a well-formed item the body of the outer loop raises nothing and
    leaves in [text] the text of the item, if it has one. *)
Lemma scan_item_wf item :
  wf_item item = true →
  scan_item item = inr (default "" (message_text not_blank item)).
Proof.
  destruct item as [| | | | |l|items]; try discriminate.
  unfold wf_item, message_text, scan_item, is_assistant_message.
  cbn [get mbind Py.exn_bind Py.ret].
  destruct (lookup_key "type" items) as [[| | | |ty| |]|];
    cbn [from_option id eq_str]; try done.
  destruct (lookup_key "role" items) as [[| | | |role| |]|];
    repeat case_bool_decide; cbn [from_option id eq_str andb]; try done;
    repeat case_bool_decide; try done.
  destruct (lookup_key "content" items) as [[| | | | |parts|]|];
    cbn [from_option id]; try done.
  apply scan_content_wf.
Qed.

(** On well-formed items the outer loop raises nothing and stops at the
    first item, in the order it visits them, that has text. *)
Lemma scan_output_wf items :
  forallb wf_item items = true →
  scan_output items = inr (default "" (head (omap (message_text not_blank) items))).
Proof.
  induction items as [|item rest IH]; [done|].
  intros [Hitem Hrest]%andb_prop. specialize (IH Hrest).
  cbn [scan_output omap list_omap]. rewrite (scan_item_wf _ Hitem).
  cbn [mbind Py.exn_bind].
  destruct (message_text not_blank item) as [s|] eqn:Hs; cbn [default].
  - apply message_text_nonempty in Hs. by rewrite bool_decide_true.
  - rewrite bool_decide_false; [exact IH | intros H; by apply H].
Qed.

Lemma omap_reverse {A B} (f : A → option B) (l : list A) :
  omap f (reverse l) = reverse (omap f l).
Proof.
  induction l as [|x l IH]; [done|].
  rewrite reverse_cons, omap_app, IH. cbn [omap list_omap].
  destruct (f x); [by rewrite reverse_cons | by rewrite app_nil_r].
Qed.

Lemma forallb_reverse {A} (f : A → bool) (l : list A) :
  forallb f (reverse l) = forallb f l.
Proof.
  apply eq_true_iff_eq. rewrite !forallb_forall.
  split; intros H x Hx; apply H; apply list_elem_of_In;
    apply list_elem_of_In in Hx; by apply elem_of_reverse.
Qed.

(** On a well-formed payload the scan raises nothing and yields the final
    answer. *)
Lemma extract_text_wf data :
  wf_payload data = true →
  extract_text data = inr (final_answer (output_of data)).
Proof.
  destruct data as [| | | | |l|items]; try discriminate.
  unfold wf_payload, extract_text, output_of, final_answer, answer_where.
  cbn [get mbind Py.exn_bind Py.ret].
  destruct (lookup_key "output" items) as [[| | | | |output|]|];
    try discriminate; cbn [from_option id reversed Py.ret]; [|done].
  intros Hwf. rewrite <- forallb_reverse in Hwf.
  unfold Py.ret. cbn [mbind Py.exn_bind].
  rewrite (scan_output_wf _ Hwf), omap_reverse, head_reverse. done.
Qed.

End ScanProperties.

Section TaskStoreClaims.

Import Json Router.

(** What the worker leaves under its task id when nothing else writes the
    store while it runs. *)
Lemma run_mas_task_lookup httpx task_id messages host model auth_headers
    (tasks : Tasks) :
  _run_mas_task httpx task_id messages host model auth_headers tasks !! task_id
  = Some (mas_result httpx messages host model auth_headers).
Proof. unfold _run_mas_task. apply lookup_insert_eq. Qed.

Lemma poll_chat_lookup task_id (tasks : Tasks) task :
  tasks !! task_id = Some task →
  (poll_chat task_id tasks).1
  = {| Models.task_id := task_id; Models.status := status task;
       Models.response := response task |}.
Proof. intros H. unfold poll_chat. by rewrite H. Qed.

Lemma append_empty_r (s : string) : s +:+ "" = s.
Proof.
  induction s as [|c s IH]; [done|].
  change (String c (s +:+ "") = String c s). by rewrite IH.
Qed.

(** [str(503)] *)
Example str_of_int_503 : Py.str_of_int 503 = "503".
Proof. vm_compute. reflexivity. Qed.

(** C5. For a task id that is not in the store, [poll_chat] returns, and
    what it returns is the id with the status ["error"] and the response
    ["Task not found"]. *)
Theorem poll_chat_unknown_task task_id (tasks : Tasks) :
  tasks !! task_id = None →
  (poll_chat task_id tasks).1
  = {| Models.task_id := task_id; Models.status := "error";
       Models.response := "Task not found" |}.
Proof. intros H. unfold poll_chat. by rewrite H. Qed.

Lemma poll_chat_unknown_task_witness :
  (poll_chat "t0" Samples.one_pending).1
  = {| Models.task_id := "t0"; Models.status := "error";
       Models.response := "Task not found" |}.
Proof.
  apply (poll_chat_unknown_task "t0" Samples.one_pending).
  reflexivity.
Defined.

(** C10. [poll_chat] leaves the store as it found it, whether the task id is
    in it or not, and the answer carries the task id that was asked for; in
    particular the lookup of the id gives afterwards what it gave before, so
    a poll for an id that is not in the store does not put it there. *)
Theorem poll_chat_frame task_id (tasks : Tasks) :
  (poll_chat task_id tasks).2 = tasks
  ∧ Models.task_id (poll_chat task_id tasks).1 = task_id
  ∧ (poll_chat task_id tasks).2 !! task_id = tasks !! task_id.
Proof.
  unfold poll_chat. by destruct (tasks !! task_id) eqn:H.
Qed.

(** C7. When the chat endpoint answers with a status code other than 200,
    the worker ends with the entry of status ["error"] whose response is
    ["MAS returned "] followed by the code in decimal, so the response
    contains the code; a poll then reports that status and that response. *)
Theorem run_mas_task_http_error httpx task_id messages host model auth_headers
    (tasks : Tasks) resp :
  post httpx (mas_url host model) messages (mas_headers auth_headers) = inr resp →
  status_code resp ≠ 200%Z →
  let tasks' := _run_mas_task httpx task_id messages host model auth_headers tasks in
  tasks' !! task_id
    = Some (error_task ("MAS returned " +:+ Py.str_of_int (status_code resp)))
  ∧ Models.status (poll_chat task_id tasks').1 = "error"
  ∧ Models.response (poll_chat task_id tasks').1
    = "MAS returned " +:+ Py.str_of_int (status_code resp)
  ∧ Py.contains (Py.str_of_int (status_code resp))
      (Models.response (poll_chat task_id tasks').1).
Proof.
  intros Hpost Hcode tasks'.
  assert (Hres : tasks' !! task_id
    = Some (error_task ("MAS returned " +:+ Py.str_of_int (status_code resp)))).
  { subst tasks'. rewrite run_mas_task_lookup. unfold mas_result.
    by rewrite Hpost, bool_decide_true. }
  rewrite (poll_chat_lookup _ _ _ Hres). simpl.
  repeat split; try done.
  exists "MAS returned ", "". by rewrite append_empty_r.
Qed.

Lemma run_mas_task_http_error_witness :
  let tasks' := _run_mas_task Samples.httpx_503 "t1" Samples.messages Samples.host
                  Samples.model Samples.auth_headers Samples.one_pending in
  tasks' !! "t1" = Some (error_task ("MAS returned " +:+ Py.str_of_int 503))
  ∧ Models.status (poll_chat "t1" tasks').1 = "error"
  ∧ Models.response (poll_chat "t1" tasks').1 = "MAS returned " +:+ Py.str_of_int 503
  ∧ Py.contains (Py.str_of_int 503) (Models.response (poll_chat "t1" tasks').1).
Proof.
  apply (run_mas_task_http_error Samples.httpx_503 "t1" Samples.messages
           Samples.host Samples.model Samples.auth_headers Samples.one_pending
           Samples.response_503).
  - reflexivity.
  - vm_compute. discriminate.
Defined.

(** The last item with text decides the answer, and without such an item
    the answer is empty. *)
Lemma answer_where_last counts (pre post : list JSON) item t :
  message_text counts item = Some t →
  Forall (λ p, message_text counts p = None) post →
  answer_where counts (pre ++ item :: post) = t.
Proof.
  intros Hitem Hpost. unfold answer_where.
  rewrite omap_app. cbn [omap list_omap]. rewrite Hitem.
  assert (omap (message_text counts) post = []) as ->.
  { induction Hpost as [|p post Hp _ IH]; [done|].
    cbn [omap list_omap]. by rewrite Hp. }
  by rewrite last_snoc.
Qed.

Lemma answer_where_none counts (output : list JSON) :
  Forall (λ p, message_text counts p = None) output →
  answer_where counts output = "".
Proof.
  intros Hnone. unfold answer_where.
  assert (omap (message_text counts) output = []) as ->; [|done].
  induction Hnone as [|p post Hp _ IH]; [done|].
  cbn [omap list_omap]. by rewrite Hp.
Qed.

(** C6, amended. When the chat endpoint answers 200 with a payload on which
    the scan raises nothing (a dict whose output, if any, is a list of
    dicts, with content parts that are dicts and texts that are strings),
    the worker ends with the entry of status ["done"] whose response is the
    final answer, and a poll reports it. The final answer is the text of the
    last output item that is an assistant message with a part of type
    ["output_text"] whose text is not blank, that is, not empty after
    trimming; it is the text of the first such part of that item. When no
    item is such a message, the response is the empty string and the status
    is still ["done"]. *)
Theorem run_mas_task_final_answer httpx task_id messages host model auth_headers
    (tasks : Tasks) resp data :
  post httpx (mas_url host model) messages (mas_headers auth_headers) = inr resp →
  status_code resp = 200%Z →
  json resp = inr data →
  wf_payload data = true →
  let tasks' := _run_mas_task httpx task_id messages host model auth_headers tasks in
  let out := (poll_chat task_id tasks').1 in
  tasks' !! task_id = Some (done_task (final_answer (output_of data)))
  ∧ out = {| Models.task_id := task_id; Models.status := "done";
             Models.response := final_answer (output_of data) |}
  ∧ (∀ pre item post t,
       output_of data = (pre ++ item :: post)%list →
       message_text not_blank item = Some t →
       Forall (λ p, message_text not_blank p = None) post →
       Models.response out = t)
  ∧ (Forall (λ p, message_text not_blank p = None) (output_of data) →
     Models.response out = "").
Proof.
  intros Hpost Hcode Hjson Hwf tasks' out.
  assert (Hres : tasks' !! task_id
    = Some (done_task (final_answer (output_of data)))).
  { subst tasks'. rewrite run_mas_task_lookup. unfold mas_result.
    rewrite Hpost, Hcode, Hjson. cbn [mbind Py.exn_bind].
    rewrite (extract_text_wf _ Hwf).
    rewrite bool_decide_false; [done | intros H; by apply H]. }
  subst out. rewrite (poll_chat_lookup _ _ _ Hres). simpl.
  split; [done|]. split; [done|]. split.
  - intros pre item post t -> Hitem Hnone. by apply answer_where_last.
  - apply answer_where_none.
Qed.

Lemma run_mas_task_final_answer_witness :
  (poll_chat "t1"
     (_run_mas_task Samples.httpx_42 "t1" Samples.messages Samples.host
        Samples.model Samples.auth_headers Samples.one_pending)).1
  = {| Models.task_id := "t1"; Models.status := "done";
       Models.response := "42 units" |}.
Proof.
  refine (proj1 (proj2
    (run_mas_task_final_answer Samples.httpx_42 "t1" Samples.messages
       Samples.host Samples.model Samples.auth_headers Samples.one_pending
       Samples.response_42 Samples.payload_42 _ _ _ _))); reflexivity.
Defined.

(** C6 as stated fails on a text that is not empty but blank: with the
    assistant messages ["hello"] and then three spaces, the worker answers
    ["hello"], while the last assistant message with non-empty text has the
    three spaces. *)
Lemma run_mas_task_skips_blank_text :
  let out :=
    (poll_chat "t1"
       (_run_mas_task Samples.httpx_blank "t1" Samples.messages Samples.host
          Samples.model Samples.auth_headers Samples.one_pending)).1 in
  out = {| Models.task_id := "t1"; Models.status := "done";
           Models.response := "hello" |}
  ∧ claimed_answer (output_of Samples.payload_blank) = "   "
  ∧ Models.response out ≠ claimed_answer (output_of Samples.payload_blank).
Proof. vm_compute. repeat split. discriminate. Qed.

(** *** The sweep *)

Lemma foldl_delete_lookup (ks : list string) (tasks : Tasks) k :
  foldl (λ tasks k, delete k tasks) tasks ks !! k
  = if bool_decide (k ∈ ks) then None else tasks !! k.
Proof.
  revert tasks. induction ks as [|k' ks IH]; intros tasks; [done|].
  cbn [foldl]. rewrite IH.
  destruct (decide (k = k')) as [->|Hne].
  - rewrite lookup_delete_eq, (bool_decide_true (k' ∈ k' :: ks))
      by (apply elem_of_cons; by left).
    by case_bool_decide.
  - rewrite lookup_delete_ne by done.
    destruct (decide (k ∈ ks)) as [Hin|Hnin].
    + rewrite !bool_decide_true; [done | apply elem_of_cons; by right | done].
    + rewrite !bool_decide_false; [done | by apply not_elem_of_cons | done].
Qed.

(** The sweep removes the entries that are stale and no others. *)
Lemma cleanup_old_tasks_lookup now (tasks : Tasks) k :
  _cleanup_old_tasks now tasks !! k
  = match tasks !! k with
    | Some v => if is_stale now v then None else Some v
    | None => None
    end.
Proof.
  unfold _cleanup_old_tasks. rewrite foldl_delete_lookup.
  case_bool_decide as Hin.
  - apply list_elem_of_fmap in Hin as ([k' v] & -> & Hkv).
    apply list_elem_of_In, filter_In in Hkv as [Hkv Hstale].
    apply list_elem_of_In, elem_of_map_to_list in Hkv.
    simpl in *. by rewrite Hkv, Hstale.
  - destruct (tasks !! k) as [v|] eqn:Hk; [|done].
    destruct (is_stale now v) eqn:Hstale; [|done].
    exfalso. apply Hin. apply list_elem_of_fmap. exists (k, v). split; [done|].
    apply list_elem_of_In, filter_In. split; [|done].
    by apply list_elem_of_In, elem_of_map_to_list.
Qed.

(** An entry stamped more than 300 seconds ago goes, whatever its status. *)
Lemma cleanup_removes_old now (tasks : Tasks) k v stamp :
  tasks !! k = Some v → created_at v = Some stamp →
  (300 < now - stamp)%Q →
  _cleanup_old_tasks now tasks !! k = None.
Proof.
  intros Hk Hstamp Hold. rewrite cleanup_old_tasks_lookup, Hk.
  unfold is_stale. rewrite Hstamp. simpl.
  apply Qltb_lt in Hold. by rewrite Hold.
Qed.

(** An entry stamped at most 300 seconds ago stays, whatever its status. *)
Lemma cleanup_keeps_recent now (tasks : Tasks) k v stamp :
  tasks !! k = Some v → created_at v = Some stamp →
  (now - stamp <= 300)%Q →
  _cleanup_old_tasks now tasks !! k = Some v.
Proof.
  intros Hk Hstamp Hrecent. rewrite cleanup_old_tasks_lookup, Hk.
  unfold is_stale. rewrite Hstamp. simpl.
  apply Qltb_ge in Hrecent. by rewrite Hrecent.
Qed.

(** An entry without a stamp counts as stamped at time 0: at any time after
    300 it goes. The entries the worker writes are of this kind. *)
Lemma cleanup_removes_unstamped now (tasks : Tasks) k v :
  tasks !! k = Some v → created_at v = None →
  (300 < now)%Q →
  _cleanup_old_tasks now tasks !! k = None.
Proof.
  intros Hk Hstamp Hnow. rewrite cleanup_old_tasks_lookup, Hk.
  unfold is_stale. rewrite Hstamp. simpl.
  assert (Hlt : (300 < now - 0)%Q) by (unfold Qminus; simpl; lra).
  apply Qltb_lt in Hlt. by rewrite Hlt.
Qed.

(** C4, on the code. Task ["t1"] is submitted at time 1700000000 into an
    empty store and its worker completes with the answer ["42 units"]; ten
    seconds later task ["t2"] is submitted. The sweep of that second submit
    removes the entry of ["t1"], ten seconds old, and a poll for ["t1"]
    reports ["Task not found"]: the worker's entry has no ["created_at"]. *)
Theorem cleanup_drops_recent_worker_entry :
  let tasks1 := start_chat_store "t1" 1700000000 1700000000 ∅ in
  let tasks2 := _run_mas_task Samples.httpx_42 "t1" Samples.messages Samples.host
                  Samples.model Samples.auth_headers tasks1 in
  let tasks3 := start_chat_store "t2" 1700000010 1700000010 tasks2 in
  tasks1 !! "t1" = Some (pending_task 1700000000)
  ∧ tasks2 !! "t1" = Some (done_task "42 units")
  ∧ tasks3 !! "t1" = None
  ∧ (poll_chat "t1" tasks3).1
    = {| Models.task_id := "t1"; Models.status := "error";
         Models.response := "Task not found" |}.
Proof. vm_compute. done. Qed.

(** *** The submitter and the worker, interleaved *)

(** The worker always ends on a terminal status. *)
Lemma mas_result_terminal httpx messages host model auth_headers :
  status (mas_result httpx messages host model auth_headers) = "done"
  ∨ status (mas_result httpx messages host model auth_headers) = "error".
Proof.
  unfold mas_result.
  destruct (post httpx _ _ _) as [e|resp]; [by right|].
  case_bool_decide; [by right|].
  destruct (json resp ≫= _); [by right | by left].
Qed.

(** Whatever the request and the store, when the worker runs to its end
    between [thread.start()] and the rest of [start_chat], a poll sees a
    terminal status first and ["pending"] after the submitter's write. *)
Lemma pending_write_after_worker (r : Submission) (tasks : Tasks) :
  ∃ out1 out2,
    poll_after r [Submitter; Worker; Worker] tasks = Some out1
    ∧ (Models.status out1 = "done" ∨ Models.status out1 = "error")
    ∧ poll_after r [Submitter; Worker; Worker; Submitter; Submitter] tasks
      = Some out2
    ∧ Models.status out2 = "pending".
Proof.
  unfold poll_after. cbn [run step initial submitter worker store mbind option_bind].
  unfold poll_chat. rewrite !lookup_insert_eq. cbn [fst].
  eexists _, _. split; [done|]. split; [apply mas_result_terminal|]. done.
Qed.

(** C3, on the code. The submitter starts the worker of ["t1"]; the worker
    writes ["running"], its HTTP call fails at once and it writes ["error"];
    a poll at this point reports ["error"]. Then the submitter sweeps and
    writes its ["pending"] entry: a poll now reports ["pending"], and neither
    thread has a step left, so the task stays pending. *)
Theorem start_chat_pending_write_reverts_terminal :
  let r := Samples.submission_refused in
  poll_after r [Submitter; Worker; Worker] ∅
    = Some {| Models.task_id := "t1"; Models.status := "error";
              Models.response := "[Errno 111] Connection refused" |}
  ∧ poll_after r [Submitter; Worker; Worker; Submitter; Submitter] ∅
    = Some {| Models.task_id := "t1"; Models.status := "pending";
              Models.response := "" |}
  ∧ ∀ t, (c ← run r [Submitter; Worker; Worker; Submitter; Submitter] (initial ∅);
          step r t c) = None.
Proof.
  vm_compute. repeat split. by intros [].
Qed.

End TaskStoreClaims.

(** * More about the query cache *)

Section StripProperties.

Lemma lstrip_head s :
  Py.lstrip s = "" ∨ ∃ c t, Py.lstrip s = String c t ∧ Py.isspace c = false.
Proof.
  induction s as [|c s IH]; [by left|].
  simpl. destruct (Py.isspace c) eqn:Hc; [exact IH|].
  right. by exists c, s.
Qed.

Lemma rstrip_cons_nonspace c t :
  Py.isspace c = false → Py.rstrip (String c t) = String c (Py.rstrip t).
Proof. intros Hc. simpl. rewrite Hc. by destruct (Py.rstrip t). Qed.

Lemma rstrip_idemp s : Py.rstrip (Py.rstrip s) = Py.rstrip s.
Proof.
  induction s as [|c s IH]; [done|].
  cbn [Py.rstrip]. destruct (Py.rstrip s) as [|c' r] eqn:Hr.
  - destruct (Py.isspace c) eqn:Hc; [done|].
    cbn [Py.rstrip]. by rewrite Hc.
  - cbn [Py.rstrip] in *. by rewrite IH.
Qed.

(** Trimming a trimmed string changes nothing. *)
Lemma strip_idemp s : Py.strip (Py.strip s) = Py.strip s.
Proof.
  unfold Py.strip.
  destruct (lstrip_head s) as [->|(c & t & -> & Hc)]; [done|].
  rewrite (rstrip_cons_nonspace _ _ Hc). cbn [Py.lstrip]. rewrite Hc.
  rewrite (rstrip_cons_nonspace _ _ Hc). by rewrite rstrip_idemp.
Qed.

End StripProperties.

Section CacheExtras.

Import Core.

(** A call changes the cache at the trimmed query at most. *)
Lemma execute_sql_cache_other ws config q ttl now (σ : State) k :
  k ≠ Py.strip q →
  _sql_cache (execute_sql ws config q ttl now σ).2 !! k = _sql_cache σ !! k.
Proof.
  intros Hk. unfold execute_sql.
  destruct (fresh_rows (Py.strip q) ttl now σ); [done|]. simpl.
  destruct (execute_statement ws (warehouse_id config) q) as [e|response];
    [done|].
  unfold handle_response.
  destruct (not_succeeded response); [done|].
  destruct (manifest_and_data response) as [[m data]|].
  - destruct (column_names m); [done|]. simpl. by rewrite lookup_insert_ne.
  - simpl. by rewrite lookup_insert_ne.
Qed.

(** A call never removes the entry of its own key. *)
Lemma execute_sql_cache_own ws config q ttl now (σ : State) :
  is_Some (_sql_cache σ !! Py.strip q) →
  is_Some (_sql_cache (execute_sql ws config q ttl now σ).2 !! Py.strip q).
Proof.
  intros Hk. unfold execute_sql.
  destruct (fresh_rows (Py.strip q) ttl now σ); [done|]. simpl.
  destruct (execute_statement ws (warehouse_id config) q) as [e|response];
    [done|].
  unfold handle_response.
  destruct (not_succeeded response); [done|].
  destruct (manifest_and_data response) as [[m data]|].
  - destruct (column_names m); [done|]. simpl. rewrite lookup_insert_eq. eauto.
  - simpl. rewrite lookup_insert_eq. eauto.
Qed.

(** X1. When no fresh entry serves the query and the warehouse client
    raises, [execute_sql] raises the same exception: there is no handler.
    The cache is left as it was and the statement counts as sent. *)
Theorem execute_sql_executor_raises ws config q ttl now (σ : State) e :
  fresh_rows (Py.strip q) ttl now σ = None →
  execute_statement ws (warehouse_id config) q = inl e →
  execute_sql ws config q ttl now σ
  = (inl e, {| _sql_cache := _sql_cache σ; executed := (executed σ ++ [q])%list |}).
Proof.
  intros Hf He. rewrite (execute_sql_miss _ _ _ _ _ _ Hf), He. done.
Qed.

Lemma execute_sql_executor_raises_witness :
  execute_sql MoreSamples.ws_raising Samples.config "SELECT 1" 300 1400
    Samples.cached_state
  = (inl MoreSamples.timeout_error,
     {| _sql_cache := _sql_cache Samples.cached_state;
        executed := (executed Samples.cached_state ++ ["SELECT 1"])%list |}).
Proof.
  apply (execute_sql_executor_raises MoreSamples.ws_raising Samples.config
           "SELECT 1" 300 1400 Samples.cached_state MoreSamples.timeout_error).
  - reflexivity.
  - reflexivity.
Defined.

(** X2. A call of [execute_sql] never removes a cache entry and never touches
    the entry of another key: every key other than the trimmed query maps to
    what it mapped to before, and a key that was in the cache is still in
    it. *)
Theorem execute_sql_cache_frame ws config q ttl now (σ : State) k :
  (k ≠ Py.strip q →
   _sql_cache (execute_sql ws config q ttl now σ).2 !! k = _sql_cache σ !! k)
  ∧ (is_Some (_sql_cache σ !! k) →
     is_Some (_sql_cache (execute_sql ws config q ttl now σ).2 !! k)).
Proof.
  split; [apply execute_sql_cache_other|].
  destruct (decide (k = Py.strip q)) as [->|Hne].
  - apply execute_sql_cache_own.
  - by rewrite execute_sql_cache_other.
Qed.

Lemma execute_sql_cache_frame_witness :
  _sql_cache (execute_sql Samples.ws_no_rows Samples.config " SELECT 2 " 300 1001
                Samples.cached_state).2 !! "SELECT 1"
  = _sql_cache Samples.cached_state !! "SELECT 1"
  ∧ is_Some (_sql_cache (execute_sql Samples.ws_no_rows Samples.config " SELECT 2 "
                           300 1001 Samples.cached_state).2 !! "SELECT 1").
Proof.
  destruct (execute_sql_cache_frame Samples.ws_no_rows Samples.config " SELECT 2 "
              300 1001 Samples.cached_state "SELECT 1") as [Hother Hkept].
  split.
  - apply Hother. vm_compute. discriminate.
  - apply Hkept. eexists. reflexivity.
Defined.

(** X3. The keys of the cache are trimmed query texts: when every key of the
    cache is its own trimmed form before a call of [execute_sql], the same
    holds after it. *)
Theorem execute_sql_keys_trimmed ws config q ttl now (σ : State) :
  (∀ k, is_Some (_sql_cache σ !! k) → Py.strip k = k) →
  ∀ k, is_Some (_sql_cache (execute_sql ws config q ttl now σ).2 !! k) →
       Py.strip k = k.
Proof.
  intros Hinv k Hk.
  destruct (decide (k = Py.strip q)) as [->|Hne].
  - apply strip_idemp.
  - rewrite execute_sql_cache_other in Hk by done. by apply Hinv.
Qed.

Lemma execute_sql_keys_trimmed_witness :
  is_Some (_sql_cache (execute_sql Samples.ws_one_row Samples.config
                         "  SELECT 2  " 300 1001 Samples.cached_state).2
           !! "SELECT 2")
  ∧ Py.strip "SELECT 2" = "SELECT 2".
Proof.
  assert (Hin : is_Some (_sql_cache (execute_sql Samples.ws_one_row Samples.config
                           "  SELECT 2  " 300 1001 Samples.cached_state).2
                         !! "SELECT 2")).
  { eexists. vm_compute. reflexivity. }
  split; [exact Hin|].
  apply (execute_sql_keys_trimmed Samples.ws_one_row Samples.config
           "  SELECT 2  " 300 1001 Samples.cached_state); [|exact Hin].
  intros k [v Hk]. unfold Samples.cached_state in Hk. simpl in Hk.
  apply lookup_singleton_Some in Hk as [<- _]. reflexivity.
Defined.

(** X4. With a bound [ttl] of zero or less the cache never serves: an entry
    whose timestamp is not in the future is stale, and the call sends the
    query to the warehouse. *)
Theorem execute_sql_nonpositive_ttl ws config q ttl now (σ : State)
    cached_at cached_rows :
  (ttl <= 0)%Z →
  _sql_cache σ !! Py.strip q = Some (cached_at, cached_rows) →
  (cached_at <= now)%Q →
  executed (execute_sql ws config q ttl now σ).2 = (executed σ ++ [q])%list.
Proof.
  intros Httl Hk Hnow.
  rewrite execute_sql_executed.
  rewrite (fresh_rows_expired _ _ _ _ _ _ Hk); [done|].
  assert (inject_Z ttl <= 0)%Q.
  { change 0%Q with (inject_Z 0). by rewrite <- Zle_Qle. }
  lra.
Qed.

Lemma execute_sql_nonpositive_ttl_witness :
  executed (execute_sql Samples.ws_one_row Samples.config "SELECT 1" 0 1000
              Samples.cached_state).2
  = (executed Samples.cached_state ++ ["SELECT 1"])%list.
Proof.
  apply (execute_sql_nonpositive_ttl Samples.ws_one_row Samples.config
           "SELECT 1" 0 1000 Samples.cached_state 1000 Samples.one_row).
  - reflexivity.
  - reflexivity.
  - vm_compute. discriminate.
Defined.

(** X5. A failed execution is not cached: when nothing is cached for the
    query and the warehouse answers with a state other than SUCCEEDED, the
    next call with the same trimmed query, at any time and with any bound,
    sends its query to the warehouse again. *)
Theorem execute_sql_failure_not_cached ws1 ws2 config q1 q2 ttl1 ttl2 now1 now2
    (σ : State) response :
  _sql_cache σ !! Py.strip q1 = None →
  execute_statement ws1 (warehouse_id config) q1 = inr response →
  not_succeeded response = true →
  Py.strip q2 = Py.strip q1 →
  executed (execute_sql ws2 config q2 ttl2 now2
              (execute_sql ws1 config q1 ttl1 now1 σ).2).2
  = (executed σ ++ [q1; q2])%list.
Proof.
  intros Hnone Hexec Hfail Hkey.
  assert (Hf1 : fresh_rows (Py.strip q1) ttl1 now1 σ = None).
  { unfold fresh_rows. by rewrite Hnone. }
  rewrite (execute_sql_miss _ _ _ _ _ _ Hf1), Hexec.
  unfold handle_response. rewrite Hfail. simpl.
  rewrite execute_sql_executed. unfold fresh_rows. simpl.
  rewrite Hkey, Hnone. simpl. by rewrite <- app_assoc.
Qed.

Lemma execute_sql_failure_not_cached_witness :
  executed (execute_sql Samples.ws_one_row Samples.config " SELECT 1" 300 1001
              (execute_sql Samples.ws_failing Samples.config "SELECT 1" 300 1000
                 Samples.empty_state).2).2
  = (executed Samples.empty_state ++ ["SELECT 1"; " SELECT 1"])%list.
Proof.
  apply (execute_sql_failure_not_cached Samples.ws_failing Samples.ws_one_row
           Samples.config "SELECT 1" " SELECT 1" 300 300 1000 1001
           Samples.empty_state Samples.failed_response).
  - reflexivity.
  - reflexivity.
  - reflexivity.
  - reflexivity.
Defined.

(** X6. A successful response that has data rows but no manifest is taken
    for an empty result: the call returns the empty list and caches it, and
    the rows of the response are dropped. *)
Theorem execute_sql_no_manifest_drops_rows ws config q ttl now (σ : State)
    response :
  fresh_rows (Py.strip q) ttl now σ = None →
  execute_statement ws (warehouse_id config) q = inr response →
  not_succeeded response = false →
  manifest response = None →
  (execute_sql ws config q ttl now σ).1 = inr []
  ∧ _sql_cache (execute_sql ws config q ttl now σ).2 !! Py.strip q = Some (now, []).
Proof.
  intros Hf Hexec Hok Hman.
  rewrite (execute_sql_miss _ _ _ _ _ _ Hf), Hexec.
  unfold handle_response, manifest_and_data. rewrite Hok, Hman. simpl.
  split; [done|]. apply lookup_insert_eq.
Qed.

Lemma execute_sql_no_manifest_drops_rows_witness :
  data_rows MoreSamples.no_manifest_response = [[Some "1"]]
  ∧ (execute_sql MoreSamples.ws_no_manifest Samples.config "SELECT 1" 300 1000
       Samples.empty_state).1 = inr []
  ∧ _sql_cache (execute_sql MoreSamples.ws_no_manifest Samples.config "SELECT 1"
                  300 1000 Samples.empty_state).2 !! Py.strip "SELECT 1"
    = Some (1000%Q, []).
Proof.
  split; [reflexivity|].
  apply (execute_sql_no_manifest_drops_rows MoreSamples.ws_no_manifest
           Samples.config "SELECT 1" 300 1000 Samples.empty_state
           MoreSamples.no_manifest_response); reflexivity.
Defined.

(** X7. A successful response with data rows whose manifest has no schema
    makes [execute_sql] raise the AttributeError of
    [response.manifest.schema.columns]; nothing is cached. *)
Theorem execute_sql_no_schema_raises ws config q ttl now (σ : State)
    response m data :
  fresh_rows (Py.strip q) ttl now σ = None →
  execute_statement ws (warehouse_id config) q = inr response →
  not_succeeded response = false →
  manifest_and_data response = Some (m, data) →
  schema m = None →
  (execute_sql ws config q ttl now σ).1
  = inl (Py.AttributeError "NoneType" "columns")
  ∧ _sql_cache (execute_sql ws config q ttl now σ).2 = _sql_cache σ.
Proof.
  intros Hf Hexec Hok Hdata Hschema.
  rewrite (execute_sql_miss _ _ _ _ _ _ Hf), Hexec.
  unfold handle_response, column_names. by rewrite Hok, Hdata, Hschema.
Qed.

Lemma execute_sql_no_schema_raises_witness :
  (execute_sql MoreSamples.ws_no_schema Samples.config "SELECT 1" 300 1000
     Samples.empty_state).1
  = inl (Py.AttributeError "NoneType" "columns")
  ∧ _sql_cache (execute_sql MoreSamples.ws_no_schema Samples.config "SELECT 1"
                  300 1000 Samples.empty_state).2
    = _sql_cache Samples.empty_state.
Proof.
  apply (execute_sql_no_schema_raises MoreSamples.ws_no_schema Samples.config
           "SELECT 1" 300 1000 Samples.empty_state MoreSamples.no_schema_response
           {| schema := None |} [[Some "1"]]); reflexivity.
Defined.

(** *** The rows built from a response *)

Lemma foldl_insert_last (l : list (option string * option string)) (d : Row) k :
  foldl (λ d kv, <[kv.1 := kv.2]> d) d l !! k
  = match last (filter (λ kv, kv.1 = k) l) with
    | Some kv => Some kv.2
    | None => d !! k
    end.
Proof.
  induction l as [|kv l IH] using rev_ind; [done|].
  rewrite foldl_app, filter_app, filter_cons, filter_nil. cbn [foldl].
  destruct (decide (kv.1 = k)) as [Hk|Hk].
  - rewrite last_snoc, <- Hk. apply lookup_insert_eq.
  - rewrite app_nil_r. by rewrite lookup_insert_ne.
Qed.

Lemma foldl_insert_notin (l : list (option string * option string)) (d : Row) k :
  k ∉ l.*1 →
  foldl (λ d kv, <[kv.1 := kv.2]> d) d l !! k = d !! k.
Proof.
  revert d. induction l as [|kv l IH]; intros d Hk; [done|].
  apply not_elem_of_cons in Hk as [Hne Hk].
  cbn [foldl]. rewrite IH by done. by rewrite lookup_insert_ne.
Qed.

Lemma foldl_insert_nodup (cols row : list (option string)) (d : Row) j name cell :
  NoDup cols → cols !! j = Some name → row !! j = Some cell →
  foldl (λ d kv, <[kv.1 := kv.2]> d) d (zip cols row) !! name = Some cell.
Proof.
  revert row j d. induction cols as [|c cs IH]; intros row j d Hnd Hc Hr;
    [done|].
  destruct row as [|x xs]; [done|].
  apply NoDup_cons in Hnd as [Hc_notin Hnd].
  cbn [zip zip_with foldl]. destruct j as [|j]; simplify_eq/=.
  - rewrite foldl_insert_notin; [apply lookup_insert_eq|].
    intros Hin. apply Hc_notin.
    apply list_elem_of_fmap in Hin as ([c' x'] & -> & Hin).
    by apply elem_of_zip_l in Hin.
  - by apply (IH _ j).
Qed.

(** X8. In [dict(zip(columns, row))] the last pair with a given column name
    decides the cell found under that name: of two columns with the same
    name the later one wins, and a name that labels no paired column is
    absent. *)
Theorem dict_zip_last_wins (cols row : list (option string)) k :
  dict_zip cols row !! k
  = snd <$> last (filter (λ kv, kv.1 = k) (zip cols row)).
Proof.
  unfold dict_zip. rewrite foldl_insert_last.
  by destruct (last (filter (λ kv, kv.1 = k) (zip cols row))).
Qed.

(** X9. When a call of [execute_sql] runs the query and the execution
    succeeds with data rows under distinct column names, the call returns
    one dict per data row, in order, and the cell at column [j] of data row
    [i] is found in the [i]-th dict under the name of column [j], NULL cells
    included. *)
Theorem execute_sql_cell ws config q ttl now (σ : State) response m data cols
    i j row name cell :
  fresh_rows (Py.strip q) ttl now σ = None →
  execute_statement ws (warehouse_id config) q = inr response →
  not_succeeded response = false →
  manifest_and_data response = Some (m, data) →
  column_names m = inr cols →
  NoDup cols →
  data !! i = Some row → cols !! j = Some name → row !! j = Some cell →
  ∃ rows r,
    (execute_sql ws config q ttl now σ).1 = inr rows
    ∧ length rows = length data
    ∧ rows !! i = Some r
    ∧ r !! name = Some cell.
Proof.
  intros Hf Hexec Hok Hdata Hcols Hnd Hi Hj Hcell.
  rewrite (execute_sql_miss _ _ _ _ _ _ Hf), Hexec.
  unfold handle_response. rewrite Hok, Hdata, Hcols. simpl.
  exists (dict_zip cols <$> data), (dict_zip cols row).
  split; [done|]. split; [apply length_fmap|]. split.
  - by rewrite list_lookup_fmap, Hi.
  - by apply (foldl_insert_nodup _ _ _ j).
Qed.

Lemma execute_sql_cell_witness :
  ∃ rows r,
    (execute_sql MoreSamples.ws_two_rows Samples.config "SELECT id, name FROM t"
       300 1000 Samples.empty_state).1 = inr rows
    ∧ length rows = length MoreSamples.two_rows_data
    ∧ rows !! 1%nat = Some r
    ∧ r !! Some "name" = Some None.
Proof.
  apply (execute_sql_cell MoreSamples.ws_two_rows Samples.config
           "SELECT id, name FROM t" 300 1000 Samples.empty_state
           MoreSamples.two_rows_response MoreSamples.two_rows_manifest
           MoreSamples.two_rows_data [Some "id"; Some "name"] 1%nat 1%nat
           [Some "8"; None] (Some "name") None); try reflexivity.
  apply (bool_decide_unpack _). vm_compute. exact I.
Defined.

End CacheExtras.

(** * More about the chat task store *)

Section SweepExtras.

Import Json Router.

Lemma is_stale_later now now' v :
  (now <= now')%Q → is_stale now v = true → is_stale now' v = true.
Proof.
  unfold is_stale. intros Hle Hs. apply Qltb_lt in Hs. apply Qltb_lt.
  unfold Qminus in *. lra.
Qed.

(** X10. The sweep, which first lists the stale keys and then pops them one
    by one, leaves exactly the entries that are not stale, each as it was:
    the store after it is the store filtered by "not stale". It adds
    nothing and changes no entry it keeps. *)
Theorem cleanup_old_tasks_filter now (tasks : Tasks) :
  _cleanup_old_tasks now tasks
  = filter (λ kv, is_stale now kv.2 = false) tasks.
Proof.
  apply map_eq. intros k. apply option_eq. intros v.
  rewrite cleanup_old_tasks_lookup, map_lookup_filter_Some. simpl.
  destruct (tasks !! k) as [v'|]; [|intuition congruence].
  destruct (is_stale now v') eqn:Hs; split.
  - done.
  - intros [[= ->] Hv]. congruence.
  - intros [= ->]. done.
  - by intros [? _].
Qed.

(** X11. A sweep makes an earlier sweep redundant: sweeping at time [now]
    and then at a time [now'] not before it gives the store that the sweep
    at [now'] alone gives. In particular sweeping twice at the same time is
    sweeping once. *)
Theorem cleanup_old_tasks_later now now' (tasks : Tasks) :
  (now <= now')%Q →
  _cleanup_old_tasks now' (_cleanup_old_tasks now tasks)
  = _cleanup_old_tasks now' tasks.
Proof.
  intros Hle. apply map_eq. intros k.
  rewrite !cleanup_old_tasks_lookup.
  destruct (tasks !! k) as [v|]; [|done].
  destruct (is_stale now v) eqn:Hs; [|done].
  by rewrite (is_stale_later _ _ _ Hle Hs).
Qed.

Lemma cleanup_old_tasks_later_witness :
  _cleanup_old_tasks 1700000400 (_cleanup_old_tasks 1700000100 MoreSamples.three_tasks)
  = _cleanup_old_tasks 1700000400 MoreSamples.three_tasks.
Proof.
  apply (cleanup_old_tasks_later 1700000100 1700000400 MoreSamples.three_tasks).
  vm_compute. discriminate.
Defined.

End SweepExtras.

Section WorkerExtras.

Import Json Router.

(** An item that is not a dict makes the body of the outer loop raise. *)
Lemma scan_item_not_object item :
  (∀ items, item ≠ JObj items) →
  scan_item item = inl (Py.AttributeError (type_name item) "get").
Proof. intros Hno. destruct item; try done. by destruct (Hno items). Qed.

(** The outer loop passes over well-formed items without text. *)
Lemma scan_output_skip (skipped rest : list JSON) :
  forallb wf_item skipped = true →
  Forall (λ p, message_text not_blank p = None) skipped →
  scan_output (skipped ++ rest) = scan_output rest.
Proof.
  induction skipped as [|p skipped IH]; [done|].
  intros [Hp Hwf]%andb_prop Hnone.
  apply Forall_cons in Hnone as [Hp_none Hnone].
  cbn [app scan_output]. rewrite (scan_item_wf _ Hp), Hp_none.
  cbn [mbind Py.exn_bind default].
  rewrite bool_decide_false; [by apply IH | intros H; by apply H].
Qed.

(** The outer loop stops at a well-formed item with text. *)
Lemma scan_output_found item rest t :
  wf_item item = true →
  message_text not_blank item = Some t →
  scan_output (item :: rest) = inr t.
Proof.
  intros Hwf Ht. cbn [scan_output]. rewrite (scan_item_wf _ Hwf), Ht.
  cbn [mbind Py.exn_bind default].
  apply message_text_nonempty in Ht. by rewrite bool_decide_true.
Qed.

Lemma forallb_wf_reverse (l : list JSON) :
  forallb wf_item l = true → forallb wf_item (reverse l) = true.
Proof. by rewrite forallb_reverse. Qed.

Lemma Forall_none_reverse (l : list JSON) :
  Forall (λ p, message_text not_blank p = None) l →
  Forall (λ p, message_text not_blank p = None) (reverse l).
Proof. by rewrite Forall_reverse. Qed.

(** The worker's final entry when the endpoint answers 200 with JSON. *)
Lemma mas_result_200 httpx messages host model auth_headers resp data :
  post httpx (mas_url host model) messages (mas_headers auth_headers) = inr resp →
  status_code resp = 200%Z →
  json resp = inr data →
  mas_result httpx messages host model auth_headers
  = match extract_text data with
    | inl e => error_task (Py.exn_str e)
    | inr text => done_task text
    end.
Proof.
  intros Hpost Hcode Hjson. unfold mas_result.
  rewrite Hpost, Hcode, Hjson. cbn [mbind Py.exn_bind].
  rewrite bool_decide_false; [done | intros H; by apply H].
Qed.

(** X12. Whatever the endpoint does, the worker leaves under its task id an
    entry of status ["done"] or ["error"] that has no ["created_at"], and it
    changes no entry of another task. *)
Theorem run_mas_task_frame httpx task_id messages host model auth_headers
    (tasks : Tasks) k :
  let tasks' := _run_mas_task httpx task_id messages host model auth_headers tasks in
  (∃ t, tasks' !! task_id = Some t ∧ created_at t = None
        ∧ (status t = "done" ∨ status t = "error"))
  ∧ (k ≠ task_id → tasks' !! k = tasks !! k).
Proof.
  intros tasks'. split.
  - exists (mas_result httpx messages host model auth_headers).
    split; [apply run_mas_task_lookup|].
    split; [|apply mas_result_terminal].
    unfold mas_result.
    destruct (post httpx _ _ _) as [e|resp]; [done|].
    case_bool_decide; [done|].
    by destruct (json resp ≫= _).
  - intros Hk. subst tasks'. unfold _run_mas_task.
    by rewrite !lookup_insert_ne.
Qed.

Lemma run_mas_task_frame_witness :
  let tasks' := _run_mas_task Samples.httpx_42 "worker" Samples.messages
                  Samples.host Samples.model Samples.auth_headers
                  MoreSamples.three_tasks in
  (∃ t, tasks' !! "worker" = Some t ∧ created_at t = None
        ∧ (status t = "done" ∨ status t = "error"))
  ∧ tasks' !! "new" = MoreSamples.three_tasks !! "new".
Proof.
  destruct (run_mas_task_frame Samples.httpx_42 "worker" Samples.messages
              Samples.host Samples.model Samples.auth_headers
              MoreSamples.three_tasks "new") as [Hown Hother].
  split; [exact Hown|]. apply Hother. discriminate.
Defined.

(** X13. An exception in the worker's [try] block, raised by the HTTP call
    itself or by [resp.json()] on a 200 response, does not leave the worker:
    the task ends with status ["error"] and the text of the exception as
    response, and a poll reports it. *)
Theorem run_mas_task_exception httpx task_id messages host model auth_headers
    (tasks : Tasks) e :
  post httpx (mas_url host model) messages (mas_headers auth_headers) = inl e
  ∨ (∃ resp,
       post httpx (mas_url host model) messages (mas_headers auth_headers) = inr resp
       ∧ status_code resp = 200%Z ∧ json resp = inl e) →
  (poll_chat task_id
     (_run_mas_task httpx task_id messages host model auth_headers tasks)).1
  = {| Models.task_id := task_id; Models.status := "error";
       Models.response := Py.exn_str e |}.
Proof.
  intros Hraise.
  assert (Hres : mas_result httpx messages host model auth_headers
                 = error_task (Py.exn_str e)).
  { unfold mas_result. destruct Hraise as [->|(resp & -> & Hcode & Hjson)]; [done|].
    rewrite Hcode, Hjson. cbn [mbind Py.exn_bind].
    rewrite bool_decide_false; [done | intros H; by apply H]. }
  rewrite (poll_chat_lookup _ _ _ (run_mas_task_lookup _ _ _ _ _ _ _)).
  by rewrite Hres.
Qed.

Lemma run_mas_task_exception_witness :
  (poll_chat "t1"
     (_run_mas_task MoreSamples.httpx_not_json "t1" Samples.messages Samples.host
        Samples.model Samples.auth_headers Samples.one_pending)).1
  = {| Models.task_id := "t1"; Models.status := "error";
       Models.response := "Expecting value: line 1 column 1 (char 0)" |}.
Proof.
  apply (run_mas_task_exception MoreSamples.httpx_not_json "t1" Samples.messages
           Samples.host Samples.model Samples.auth_headers Samples.one_pending
           (Py.Exn "JSONDecodeError" "Expecting value: line 1 column 1 (char 0)")).
  right. exists MoreSamples.response_not_json. repeat split; reflexivity.
Defined.

(** X14. A 200 response whose JSON payload is not an object (a list, a
    string, a number, a boolean or null) ends the task with status ["error"]:
    [data.get] raises the AttributeError that names the payload's type. *)
Theorem run_mas_task_payload_not_object httpx task_id messages host model
    auth_headers (tasks : Tasks) resp data :
  post httpx (mas_url host model) messages (mas_headers auth_headers) = inr resp →
  status_code resp = 200%Z →
  json resp = inr data →
  (∀ items, data ≠ JObj items) →
  _run_mas_task httpx task_id messages host model auth_headers tasks !! task_id
  = Some (error_task ("'" +:+ type_name data +:+ "' object has no attribute 'get'")).
Proof.
  intros Hpost Hcode Hjson Hno.
  rewrite run_mas_task_lookup, (mas_result_200 _ _ _ _ _ _ _ Hpost Hcode Hjson).
  destruct data; try done. by destruct (Hno items).
Qed.

Lemma run_mas_task_payload_not_object_witness :
  _run_mas_task MoreSamples.httpx_list "t1" Samples.messages Samples.host
    Samples.model Samples.auth_headers Samples.one_pending !! "t1"
  = Some (error_task "'list' object has no attribute 'get'").
Proof.
  apply (run_mas_task_payload_not_object MoreSamples.httpx_list "t1"
           Samples.messages Samples.host Samples.model Samples.auth_headers
           Samples.one_pending MoreSamples.response_list (JArr []));
    try reflexivity.
  intros items. discriminate.
Defined.

(** X15. The scan runs from the end and stops at the answer, so what comes
    before the answer is never looked at: when the output list is
    [earlier ++ item :: later], [item] is a well-formed assistant message with
    text [t] and the items of [later] are well formed and without text, the
    task ends with status ["done"] and response [t], whatever the items of
    [earlier] are, well formed or not. *)
Theorem run_mas_task_ignores_earlier_items httpx task_id messages host model
    auth_headers (tasks : Tasks) resp items earlier item later t :
  post httpx (mas_url host model) messages (mas_headers auth_headers) = inr resp →
  status_code resp = 200%Z →
  json resp = inr (JObj items) →
  lookup_key "output" items = Some (JArr (earlier ++ item :: later)) →
  wf_item item = true →
  message_text not_blank item = Some t →
  forallb wf_item later = true →
  Forall (λ p, message_text not_blank p = None) later →
  _run_mas_task httpx task_id messages host model auth_headers tasks !! task_id
  = Some (done_task t).
Proof.
  intros Hpost Hcode Hjson Hout Hwf Ht Hlater_wf Hlater_none.
  rewrite run_mas_task_lookup, (mas_result_200 _ _ _ _ _ _ _ Hpost Hcode Hjson).
  unfold extract_text. cbn [get mbind Py.exn_bind Py.ret]. rewrite Hout.
  cbn [from_option id reversed Py.ret mbind Py.exn_bind].
  rewrite reverse_app, reverse_cons, <- app_assoc.
  rewrite scan_output_skip
    by (by apply forallb_wf_reverse || by apply Forall_none_reverse).
  cbn [app]. by rewrite (scan_output_found _ _ _ Hwf Ht).
Qed.

Lemma run_mas_task_ignores_earlier_items_witness :
  _run_mas_task MoreSamples.httpx_bad_first "t1" Samples.messages Samples.host
    Samples.model Samples.auth_headers Samples.one_pending !! "t1"
  = Some (done_task "42 units").
Proof.
  apply (run_mas_task_ignores_earlier_items MoreSamples.httpx_bad_first "t1"
           Samples.messages Samples.host Samples.model Samples.auth_headers
           Samples.one_pending MoreSamples.response_bad_first
           [("output", JArr [JInt 5; Samples.assistant_message "42 units";
                             Samples.function_call])]
           [JInt 5] (Samples.assistant_message "42 units")
           [Samples.function_call] "42 units"); try reflexivity.
  repeat constructor.
Defined.

(** X16. An output item that is not a dict and comes after the answer makes
    the whole task fail, although an answer is there: when the output list
    is [earlier ++ bad :: later], [bad] is not a dict and the items of [later] are
    well formed and without text, the task ends with status ["error"] and
    the AttributeError of [item.get] as response, whatever [earlier] holds. *)
Theorem run_mas_task_bad_later_item httpx task_id messages host model
    auth_headers (tasks : Tasks) resp items earlier bad later :
  post httpx (mas_url host model) messages (mas_headers auth_headers) = inr resp →
  status_code resp = 200%Z →
  json resp = inr (JObj items) →
  lookup_key "output" items = Some (JArr (earlier ++ bad :: later)) →
  (∀ kvs, bad ≠ JObj kvs) →
  forallb wf_item later = true →
  Forall (λ p, message_text not_blank p = None) later →
  _run_mas_task httpx task_id messages host model auth_headers tasks !! task_id
  = Some (error_task ("'" +:+ type_name bad +:+ "' object has no attribute 'get'")).
Proof.
  intros Hpost Hcode Hjson Hout Hbad Hlater_wf Hlater_none.
  rewrite run_mas_task_lookup, (mas_result_200 _ _ _ _ _ _ _ Hpost Hcode Hjson).
  unfold extract_text. cbn [get mbind Py.exn_bind Py.ret]. rewrite Hout.
  cbn [from_option id reversed Py.ret mbind Py.exn_bind].
  rewrite reverse_app, reverse_cons, <- app_assoc.
  rewrite scan_output_skip
    by (by apply forallb_wf_reverse || by apply Forall_none_reverse).
  cbn [app scan_output]. by rewrite (scan_item_not_object _ Hbad).
Qed.

Lemma run_mas_task_bad_later_item_witness :
  _run_mas_task MoreSamples.httpx_bad_last "t1" Samples.messages Samples.host
    Samples.model Samples.auth_headers Samples.one_pending !! "t1"
  = Some (error_task "'int' object has no attribute 'get'").
Proof.
  apply (run_mas_task_bad_later_item MoreSamples.httpx_bad_last "t1"
           Samples.messages Samples.host Samples.model Samples.auth_headers
           Samples.one_pending MoreSamples.response_bad_last
           [("output", JArr [Samples.assistant_message "42 units"; JInt 5;
                             Samples.function_call])]
           [Samples.assistant_message "42 units"] (JInt 5)
           [Samples.function_call]); try reflexivity.
  - intros kvs. discriminate.
  - repeat constructor.
Defined.

(** The text a loop of the scan ends with is empty or not blank. *)
Lemma scan_content_not_blank parts t :
  scan_content parts = inr t → t = "" ∨ Py.strip t ≠ "".
Proof.
  induction parts as [|c rest IH]; [intros [= <-]; by left|].
  destruct c as [| | | | |l|items]; try discriminate.
  cbn [scan_content get mbind Py.exn_bind Py.ret].
  destruct (lookup_key "type" items) as [[| | | |ty| |]|];
    cbn [from_option id eq_str]; try exact IH.
  case_bool_decide; [|exact IH].
  destruct (lookup_key "text" items) as [[| | | |s| |]|];
    cbn [from_option id]; try discriminate.
  - case_bool_decide; [|exact IH]. intros [= <-]. by right.
  - case_bool_decide; [|exact IH]. intros [= <-]. by right.
Qed.

Lemma scan_item_not_blank item t :
  scan_item item = inr t → t = "" ∨ Py.strip t ≠ "".
Proof.
  destruct item as [| | | | |l|items]; try discriminate.
  unfold scan_item. cbn [get mbind Py.exn_bind Py.ret].
  destruct (eq_str _ "message"); [|intros [= <-]; by left].
  destruct (eq_str _ "assistant"); [|intros [= <-]; by left].
  destruct (from_option id (JArr []) (lookup_key "content" items));
    try (intros [= <-]; by left).
  apply scan_content_not_blank.
Qed.

Lemma scan_output_not_blank items t :
  scan_output items = inr t → t = "" ∨ Py.strip t ≠ "".
Proof.
  induction items as [|item rest IH]; [intros [= <-]; by left|].
  cbn [scan_output]. destruct (scan_item item) as [e|text] eqn:Hitem;
    [discriminate|]. cbn [mbind Py.exn_bind].
  case_bool_decide; [|exact IH].
  intros [= <-]. by apply scan_item_not_blank in Hitem.
Qed.

(** X17. The worker never stores a blank answer: for every outcome of the
    HTTP call, when the task ends with status ["done"] its response is the
    empty string or a text that is not empty after trimming. *)
Theorem run_mas_task_answer_not_blank httpx task_id messages host model
    auth_headers (tasks : Tasks) :
  let out := (poll_chat task_id
                (_run_mas_task httpx task_id messages host model auth_headers
                   tasks)).1 in
  Models.status out = "done" →
  Models.response out = "" ∨ Py.strip (Models.response out) ≠ "".
Proof.
  intros out. subst out.
  rewrite (poll_chat_lookup _ _ _ (run_mas_task_lookup _ _ _ _ _ _ _)).
  cbn [Models.status Models.response]. unfold mas_result.
  destruct (post httpx _ _ _) as [e|resp]; [discriminate|].
  case_bool_decide; [discriminate|].
  destruct (json resp) as [e|data]; [discriminate|].
  cbn [mbind Py.exn_bind].
  destruct (extract_text data) as [e|text] eqn:Htext; [discriminate|].
  intros _. cbn [response done_task].
  unfold extract_text in Htext.
  destruct (get data "output" (JArr [])) as [e|output]; [discriminate|].
  cbn [mbind Py.exn_bind] in Htext.
  destruct (reversed output) as [e|items]; [discriminate|].
  by apply scan_output_not_blank in Htext.
Qed.

Lemma run_mas_task_answer_not_blank_witness :
  let out := (poll_chat "t1"
                (_run_mas_task Samples.httpx_blank "t1" Samples.messages
                   Samples.host Samples.model Samples.auth_headers
                   Samples.one_pending)).1 in
  Models.response out = "" ∨ Py.strip (Models.response out) ≠ "".
Proof.
  apply (run_mas_task_answer_not_blank Samples.httpx_blank "t1" Samples.messages
           Samples.host Samples.model Samples.auth_headers Samples.one_pending).
  reflexivity.
Defined.

End WorkerExtras.

Section InterleavingExtras.

Import Json Router.

(** A property that every step keeps holds after every schedule. *)
Lemma run_invariant r (P : Config → Prop) schedule c0 c :
  (∀ t c c', P c → step r t c = Some c' → P c') →
  P c0 → run r schedule c0 = Some c → P c.
Proof.
  intros Hstep. revert c0. induction schedule as [|t rest IH]; intros c0 H0.
  - by intros [= <-].
  - cbn [run]. destruct (step r t c0) as [c1|] eqn:H1; [|done].
    apply IH. by apply (Hstep t c0).
Qed.

Lemma run_snoc r schedule t c0 :
  run r (schedule ++ [t]) c0 = c1 ← run r schedule c0; step r t c1.
Proof.
  revert c0. induction schedule as [|t' rest IH]; intros c0.
  - cbn. by destruct (step r t c0).
  - cbn [app run]. destruct (step r t' c0) as [c1|]; [apply IH|done].
Qed.

(** X18. In every interleaving of the submitter with its worker, from any
    store, once [start_chat] has returned the task is in the store, with one
    of the four statuses: a client that holds the task id is never told
    ["Task not found"] because of the order of these two threads. *)
Theorem submitted_task_is_registered r (tasks : Tasks) schedule c :
  run r schedule (initial tasks) = Some c →
  submitter c = SubmitterReturned →
  ∃ t, store c !! sub_task_id r = Some t
       ∧ (status t = "pending" ∨ status t = "running"
          ∨ status t = "done" ∨ status t = "error").
Proof.
  apply (run_invariant r (λ c,
    submitter c = SubmitterReturned →
    ∃ t, store c !! sub_task_id r = Some t
         ∧ (status t = "pending" ∨ status t = "running"
            ∨ status t = "done" ∨ status t = "error"))); [|done].
  intros t c0 c' Hinv Hstep Hret.
  destruct t; cbn [step] in Hstep.
  - destruct (submitter c0); simplify_eq/=.
    eexists. rewrite lookup_insert_eq. split; [done|]. by left.
  - destruct (worker c0); simplify_eq/=.
    + eexists. rewrite lookup_insert_eq. split; [done|]. right. by left.
    + eexists. rewrite lookup_insert_eq. split; [done|].
      right. right. apply mas_result_terminal.
Qed.

Lemma submitted_task_is_registered_witness :
  ∃ c, run Samples.submission_refused
         [Submitter; Worker; Submitter; Submitter] (initial MoreSamples.three_tasks)
       = Some c
       ∧ ∃ t, store c !! "t1" = Some t
              ∧ (status t = "pending" ∨ status t = "running"
                 ∨ status t = "done" ∨ status t = "error").
Proof.
  eexists. split; [reflexivity|].
  eapply (submitted_task_is_registered Samples.submission_refused
            MoreSamples.three_tasks [Submitter; Worker; Submitter; Submitter]);
    reflexivity.
Defined.

(** X19. The thread that takes the last step decides what a finished
    request leaves in the store: in every interleaving that ends with both
    threads returned, the entry of the task is the worker's final entry when
    the worker stepped last, and the submitter's pending entry, for good,
    when the submitter stepped last. *)
Theorem complete_run_last_writer r (tasks : Tasks) schedule t c :
  run r (schedule ++ [t]) (initial tasks) = Some c →
  submitter c = SubmitterReturned →
  worker c = WorkerReturned →
  store c !! sub_task_id r
  = Some match t with
         | Submitter => pending_task (sub_now2 r)
         | Worker => mas_result (sub_httpx r) (sub_messages r) (sub_host r)
                       (sub_model r) (sub_auth_headers r)
         end.
Proof.
  rewrite run_snoc.
  destruct (run r schedule (initial tasks)) as [c1|]; [|done].
  cbn [mbind option_bind]. intros Hstep Hsub Hwrk.
  destruct t; cbn [step] in Hstep.
  - destruct (submitter c1); simplify_eq/=. apply lookup_insert_eq.
  - destruct (worker c1); simplify_eq/=. apply lookup_insert_eq.
Qed.

Lemma complete_run_last_writer_witness :
  ∃ c, run Samples.submission_refused
         ([Submitter; Submitter; Submitter; Worker] ++ [Worker]) (initial ∅)
       = Some c
       ∧ store c !! "t1" = Some (error_task "[Errno 111] Connection refused").
Proof.
  eexists. split; [reflexivity|].
  apply (complete_run_last_writer Samples.submission_refused ∅
           [Submitter; Submitter; Submitter; Worker] Worker); reflexivity.
Defined.

(** X20. Once the worker has returned, the store never shows the task as
    running again: in every interleaving, from any store, the task is then
    absent, pending or in the worker's final entry. *)
Theorem finished_worker_never_running r (tasks : Tasks) schedule c :
  run r schedule (initial tasks) = Some c →
  worker c = WorkerReturned →
  store c !! sub_task_id r = None
  ∨ store c !! sub_task_id r = Some (pending_task (sub_now2 r))
  ∨ store c !! sub_task_id r
    = Some (mas_result (sub_httpx r) (sub_messages r) (sub_host r)
              (sub_model r) (sub_auth_headers r)).
Proof.
  apply (run_invariant r (λ c,
    worker c = WorkerReturned →
    store c !! sub_task_id r = None
    ∨ store c !! sub_task_id r = Some (pending_task (sub_now2 r))
    ∨ store c !! sub_task_id r
      = Some (mas_result (sub_httpx r) (sub_messages r) (sub_host r)
                (sub_model r) (sub_auth_headers r)))); [|done].
  intros t c0 c' Hinv Hstep Hret.
  destruct t; cbn [step] in Hstep.
  - destruct (submitter c0); simplify_eq/=.
    + specialize (Hinv Hret). rewrite cleanup_old_tasks_lookup.
      destruct Hinv as [->|[->| ->]]; [by left|..];
        match goal with |- context [is_stale ?n ?v] => destruct (is_stale n v) end;
        auto.
    + right. left. apply lookup_insert_eq.
  - destruct (worker c0); simplify_eq/=.
    right. right. apply lookup_insert_eq.
Qed.

Lemma finished_worker_never_running_witness :
  ∃ c, run Samples.submission_refused [Submitter; Worker; Worker; Submitter]
         (initial ∅) = Some c
       ∧ (store c !! "t1" = None
          ∨ store c !! "t1" = Some (pending_task 1700000000)
          ∨ store c !! "t1" = Some (error_task "[Errno 111] Connection refused")).
Proof.
  eexists. split; [reflexivity|].
  apply (finished_worker_never_running Samples.submission_refused ∅
           [Submitter; Worker; Worker; Submitter]); reflexivity.
Defined.

End InterleavingExtras.

(** * The HTTP layer *)

Section StringTests.

Import PyStr.

Lemma append_cons c (s t : string) : String c s +:+ t = String c (s +:+ t).
Proof. reflexivity. Qed.

Lemma append_assoc (s t u : string) : (s +:+ t) +:+ u = s +:+ (t +:+ u).
Proof.
  induction s as [|c s IH]; [done|]. rewrite !append_cons. by rewrite IH.
Qed.

Lemma startswith_empty s : startswith s "" = true.
Proof. by destruct s. Qed.

(** [startswith] tests for a prefix. *)
Lemma startswith_spec s p : startswith s p = true ↔ ∃ r, s = p +:+ r.
Proof.
  revert s. induction p as [|a p IH]; intros s.
  - split; [|by destruct s]. intros _. by exists s.
  - destruct s as [|b s]; cbn [startswith].
    + split; [done|]. intros [r Hr]. by rewrite append_cons in Hr.
    + rewrite andb_true_iff, bool_decide_eq_true, IH. split.
      * intros [-> [r ->]]. by exists r.
      * intros [r Hr]. rewrite append_cons in Hr. injection Hr as -> ->. eauto.
Qed.

(** [str_in] tests for a substring. *)
Lemma str_in_spec sub s : str_in sub s = true ↔ Py.contains sub s.
Proof.
  unfold Py.contains. induction s as [|c s IH]; cbn [str_in].
  - rewrite orb_false_r, startswith_spec. split.
    + intros [r Hr]. by exists "", r.
    + intros ([|c pre] & post & Hs); [by exists post|].
      by rewrite append_cons in Hs.
  - rewrite orb_true_iff, startswith_spec, IH. split.
    + intros [[r Hr]|(pre & post & ->)].
      * by exists "", r.
      * by exists (String c pre), post.
    + intros ([|c' pre] & post & Hs).
      * left. by exists post.
      * right. rewrite append_cons in Hs. injection Hs as -> ->. eauto.
Qed.

Lemma str_in_false sub s :
  str_in sub s = false ↔ ¬ Py.contains sub s.
Proof. rewrite <- str_in_spec. by destruct (str_in sub s). Qed.

(** A string without a slash is its own last segment. *)
Lemma last_segment_no_slash s : str_in "/" s = false → last_segment s = s.
Proof. destruct s as [|c s]; [done|]. cbn [last_segment]. by intros ->. Qed.

(** The last segment of [dir/file] is [file] when [file] has no slash. *)
Lemma last_segment_file dir file :
  str_in "/" file = false → last_segment (dir +:+ "/" +:+ file) = file.
Proof.
  intros Hfile. induction dir as [|c dir IH].
  - change ("" +:+ "/" +:+ file) with (String "/" file).
    cbn [last_segment str_in startswith].
    rewrite bool_decide_true, startswith_empty by done.
    cbn [andb orb]. by apply last_segment_no_slash.
  - rewrite append_cons. cbn [last_segment].
    assert (str_in "/" (String c (dir +:+ "/" +:+ file)) = true) as ->; [|done].
    apply str_in_spec. by exists (String c dir), file.
Qed.

End StringTests.

Section HandlerExtras.

Import PyStr CoreWeb.

(** X21. An exception on a path under the API prefix is always answered
    with the JSON response that carries the exception's detail and status
    code, never with the page of the single-page application, whatever the
    method, the accept header and the status code. *)
Theorem http_exception_handler_api_path api_prefix rest meth acc exc :
  http_exception_handler api_prefix
    {| method := meth; path := api_prefix +:+ rest; accept := acc |} exc
  = JSONResponse (detail exc) (status_code exc).
Proof.
  unfold http_exception_handler. cbn [path method accept].
  assert (startswith (api_prefix +:+ rest) api_prefix = true) as ->.
  { apply startswith_spec. by exists rest. }
  by case_bool_decide.
Qed.

(** X22. A 404 on a path whose last segment contains a dot, such as a
    missing asset file, is answered with JSON, never with the page: for
    [dir/file] where [file] has no slash and has a dot, whatever the method
    and the accept header. *)
Theorem http_exception_handler_asset_path api_prefix dir file meth acc exc :
  ¬ Py.contains "/" file →
  Py.contains "." file →
  http_exception_handler api_prefix
    {| method := meth; path := dir +:+ "/" +:+ file; accept := acc |} exc
  = JSONResponse (detail exc) (status_code exc).
Proof.
  intros Hslash Hdot. unfold http_exception_handler. cbn [path method accept].
  apply str_in_false in Hslash. apply str_in_spec in Hdot.
  rewrite (last_segment_file _ _ Hslash), Hdot.
  case_bool_decide; [|done]. cbn [negb]. by rewrite !andb_false_r.
Qed.

Lemma http_exception_handler_asset_path_witness :
  http_exception_handler "/api"
    {| method := "GET"; path := "/assets" +:+ "/" +:+ "app.js";
       accept := Some "text/html,*/*" |}
    {| status_code := 404; detail := "Not Found" |}
  = JSONResponse "Not Found" 404.
Proof.
  apply (http_exception_handler_asset_path "/api" "/assets" "app.js" "GET"
           (Some "text/html,*/*") {| status_code := 404; detail := "Not Found" |}).
  - apply str_in_false. reflexivity.
  - apply str_in_spec. reflexivity.
Defined.

(** X23. A 404 for a page navigation gets the page of the single-page
    application: a GET whose accept header contains [text/html], on a path
    [dir/page] that is not under the API prefix and whose last segment
    [page] has neither slash nor dot. With any other status code the same
    request gets the JSON response with that code. *)
Theorem http_exception_handler_page_navigation api_prefix dir page acc exc :
  ¬ (∃ rest, dir +:+ "/" +:+ page = api_prefix +:+ rest) →
  Py.contains "text/html" acc →
  ¬ Py.contains "/" page →
  ¬ Py.contains "." page →
  http_exception_handler api_prefix
    {| method := "GET"; path := dir +:+ "/" +:+ page; accept := Some acc |} exc
  = if bool_decide (status_code exc = 404%Z) then IndexHtml
    else JSONResponse (detail exc) (status_code exc).
Proof.
  intros Hapi Hhtml Hslash Hdot.
  unfold http_exception_handler. cbn [path method accept from_option id].
  case_bool_decide; [|done].
  apply str_in_false in Hslash. apply str_in_false in Hdot.
  apply str_in_spec in Hhtml.
  rewrite (last_segment_file _ _ Hslash), Hdot, Hhtml.
  destruct (startswith (dir +:+ "/" +:+ page) api_prefix) eqn:Hp.
  - destruct Hapi. by apply startswith_spec.
  - by rewrite bool_decide_true.
Qed.

Lemma http_exception_handler_page_navigation_witness :
  http_exception_handler "/api"
    {| method := "GET"; path := "/dashboard" +:+ "/" +:+ "executive";
       accept := Some "text/html,application/xhtml+xml" |}
    {| status_code := 404; detail := "Not Found" |}
  = if bool_decide (404 = 404)%Z then IndexHtml else JSONResponse "Not Found" 404.
Proof.
  apply (http_exception_handler_page_navigation "/api" "/dashboard" "executive"
           "text/html,application/xhtml+xml"
           {| status_code := 404; detail := "Not Found" |}).
  - intros Hex. apply startswith_spec in Hex. discriminate.
  - apply str_in_spec. reflexivity.
  - apply str_in_false. reflexivity.
  - apply str_in_false. reflexivity.
Defined.



End HandlerExtras.

Section MiddlewareExtras.

Import PyStr App.

(** X25. The middleware changes nothing of a response but its
    [cache-control] header: the status code, the body and every other
    header are those of the inner response. A response for a path that
    contains [/current-user], one with a status other than 200, and one to a
    method other than GET are returned untouched. *)
Theorem dispatch_frame meth path (response : Response) :
  status_code (dispatch meth path response) = status_code response
  ∧ body (dispatch meth path response) = body response
  ∧ delete "cache-control" (headers (dispatch meth path response))
    = delete "cache-control" (headers response)
  ∧ (Py.contains "/current-user" path ∨ status_code response ≠ 200%Z
     ∨ meth ≠ "GET" → dispatch meth path response = response).
Proof.
  unfold dispatch.
  destruct (bool_decide (meth = "GET")) eqn:Hm;
    destruct (startswith path "/api/");
    destruct (bool_decide (status_code response = 200%Z)) eqn:Hs;
    destruct (str_in "/current-user" path) eqn:Hc;
    cbn [andb negb status_code body headers];
    repeat split; try done; try apply delete_insert_eq.
  intros [Hin|[Hne|Hne]].
  - apply str_in_spec in Hin. congruence.
  - by apply bool_decide_eq_true in Hs.
  - by apply bool_decide_eq_true in Hm.
Qed.

Lemma dispatch_frame_witness :
  let response := {| status_code := 200; headers := {[ "content-type" := "application/json" ]};
                     body := "{}" |} in
  dispatch "GET" "/api/current-user" response = response.
Proof.
  intros response.
  apply (dispatch_frame "GET" "/api/current-user" response).
  left. apply str_in_spec. reflexivity.
Defined.

(** X26. Every 200 response to a GET on a path under [/api/] that does not
    contain [/current-user] leaves the middleware with the header
    [cache-control: public, max-age=120, stale-while-revalidate=300],
    whatever the endpoint behind the path is. *)
Theorem dispatch_public_cache rest (response : Response) :
  status_code response = 200%Z →
  ¬ Py.contains "/current-user" ("/api/" +:+ rest) →
  headers (dispatch "GET" ("/api/" +:+ rest) response) !! "cache-control"
  = Some "public, max-age=120, stale-while-revalidate=300".
Proof.
  intros Hs Hc. unfold dispatch. apply str_in_false in Hc.
  assert (startswith ("/api/" +:+ rest) "/api/" = true) as ->.
  { apply startswith_spec. by exists rest. }
  rewrite Hc, !bool_decide_true by done.
  cbn [andb negb headers]. apply lookup_insert_eq.
Qed.

Lemma dispatch_public_cache_witness :
  headers (dispatch "GET"
             ("/api/" +:+ "chat/poll/0b6c2c0e-6f0e-4a3e-9d57-2f1f0c0a1b11")
             {| status_code := 200;
                headers := {[ "content-type" := "application/json" ]};
                body := "{..}" |}) !! "cache-control"
  = Some "public, max-age=120, stale-while-revalidate=300".
Proof.
  apply (dispatch_public_cache "chat/poll/0b6c2c0e-6f0e-4a3e-9d57-2f1f0c0a1b11").
  - reflexivity.
  - apply str_in_false. reflexivity.
Defined.

End MiddlewareExtras.

(** * The DC inventory endpoint *)

Section TrimmingAppends.

Lemma length_append (s t : string) :
  String.length (s +:+ t) = (String.length s + String.length t)%nat.
Proof.
  induction s as [|c s IH]; [done|]. rewrite append_cons. simpl. by rewrite IH.
Qed.

(** Appending the same text to two strings keeps them apart. *)
Lemma append_inj_r (s1 s2 t : string) : s1 +:+ t = s2 +:+ t → s1 = s2.
Proof.
  revert s2. induction s1 as [|c s1 IH]; intros [|c' s2] H.
  - done.
  - change (t = String c' (s2 +:+ t)) in H.
    apply (f_equal String.length) in H.
    simpl in H. rewrite length_append in H. lia.
  - change (String c (s1 +:+ t) = t) in H.
    apply (f_equal String.length) in H.
    simpl in H. rewrite length_append in H. lia.
  - rewrite !append_cons in H. injection H as -> H. f_equal. by apply IH.
Qed.

Lemma lstrip_append_space (w x : string) :
  Py.lstrip w = "" → Py.lstrip (w +:+ x) = Py.lstrip x.
Proof.
  induction w as [|c w IH]; [done|].
  rewrite append_cons. cbn [Py.lstrip].
  destruct (Py.isspace c); [exact IH | discriminate].
Qed.

Lemma lstrip_append_text (a x : string) :
  Py.lstrip a = a → a ≠ "" → Py.lstrip (a +:+ x) = a +:+ x.
Proof.
  destruct a as [|c a]; [done|]. intros Ha _.
  rewrite append_cons. cbn [Py.lstrip] in *.
  destruct (Py.isspace c) eqn:Hc; [|done].
  exfalso. assert (Hlen : (String.length (Py.lstrip a) <= String.length a)%nat).
  { clear. induction a as [|c a IH]; [done|]. cbn [Py.lstrip].
    destruct (Py.isspace c); simpl; lia. }
  rewrite Ha in Hlen. simpl in Hlen. lia.
Qed.

Lemma rstrip_append_text (m t : string) :
  Py.rstrip t ≠ "" → Py.rstrip (m +:+ t) = m +:+ Py.rstrip t.
Proof.
  intros Ht. induction m as [|c m IH]; [done|].
  rewrite !append_cons. cbn [Py.rstrip]. rewrite IH.
  destruct (m +:+ Py.rstrip t) eqn:Hm; [|done].
  destruct m; [done|]. by rewrite append_cons in Hm.
Qed.

Lemma rstrip_append_ne (m t : string) :
  Py.rstrip t ≠ "" → Py.rstrip (m +:+ t) ≠ "".
Proof.
  intros Ht. rewrite (rstrip_append_text _ _ Ht).
  destruct m; [done|]. by rewrite append_cons.
Qed.

End TrimmingAppends.

Section EndpointExtras.

Import Core Endpoints.

Ltac rstrip_text :=
  repeat first [ solve [vm_compute; discriminate] | apply rstrip_append_ne ].

(** The cache key of the statement: the statement without the line feed and
    the blanks around it. *)
Lemma strip_dc_inventory_query s dc_id :
  Py.strip (dc_inventory_query s dc_id)
  = "SELECT i.product_id, p.name as product_name," +:+ nl +:+
    "               i.dc_id, s.location_name as dc_name," +:+ nl +:+
    "               i.allocated_qty, i.safety_stock, i.excess_qty, i.total_qty," +:+ nl +:+
    "               CAST(i.snapshot_date AS STRING) as snapshot_date" +:+ nl +:+
    "        FROM " +:+ s +:+ ".fact_dc_inventory i" +:+ nl +:+
    "        JOIN " +:+ s +:+ ".dim_product p ON i.product_id = p.product_id" +:+ nl +:+
    "        JOIN " +:+ s +:+ ".dim_storage_location s ON i.dc_id = s.location_id" +:+ nl +:+
    "        WHERE i.snapshot_date = (SELECT MAX(snapshot_date) FROM " +:+ s +:+ ".fact_dc_inventory)" +:+ nl +:+
    "        " +:+ dc_inventory_where dc_id +:+ nl +:+
    "        ORDER BY i.total_qty DESC" +:+ nl +:+
    "        LIMIT 10".
Proof.
  unfold Py.strip, dc_inventory_query. cbv zeta.
  rewrite (lstrip_append_space nl) by reflexivity.
  change "        SELECT i.product_id, p.name as product_name,"
    with ("        " +:+ "SELECT i.product_id, p.name as product_name,").
  rewrite (append_assoc "        ").
  rewrite (lstrip_append_space "        ") by reflexivity.
  rewrite lstrip_append_text by done.
  rewrite !rstrip_append_text by rstrip_text.
  reflexivity.
Qed.

Lemma strip_dc_inventory_query_inj s dc_id1 dc_id2 :
  Py.strip (dc_inventory_query s dc_id1) = Py.strip (dc_inventory_query s dc_id2) →
  dc_inventory_where dc_id1 = dc_inventory_where dc_id2.
Proof.
  rewrite !strip_dc_inventory_query. intros H.
  repeat (apply (inj (String.append _)) in H).
  by apply append_inj_r in H.
Qed.

(** X27. The cache tells the filters of [list_dc_inventory] apart: two
    different non-empty [dc_id] values give statements with different cache
    keys, and a non-empty [dc_id] never shares the key of the unfiltered
    statement, so the cached rows of one DC are never served for another.
    The empty [dc_id] and no [dc_id] give the same statement. *)
Theorem dc_inventory_cache_keys s d1 d2 :
  dc_inventory_query s (Some "") = dc_inventory_query s None
  ∧ (d1 ≠ "" →
     Py.strip (dc_inventory_query s (Some d1)) ≠ Py.strip (dc_inventory_query s None))
  ∧ (d1 ≠ "" → d2 ≠ "" → d1 ≠ d2 →
     Py.strip (dc_inventory_query s (Some d1))
     ≠ Py.strip (dc_inventory_query s (Some d2))).
Proof.
  split; [done|]. split.
  - intros Hd1 H%strip_dc_inventory_query_inj.
    cbn [dc_inventory_where] in H. rewrite bool_decide_true in H by done.
    discriminate.
  - intros Hd1 Hd2 Hne H%strip_dc_inventory_query_inj.
    cbn [dc_inventory_where] in H. rewrite !bool_decide_true in H by done.
    apply (inj (String.append _)) in H. by apply append_inj_r in H.
Qed.

Lemma dc_inventory_cache_keys_witness :
  Py.strip (dc_inventory_query "cat.sch" (Some "DC1"))
  ≠ Py.strip (dc_inventory_query "cat.sch" None)
  ∧ Py.strip (dc_inventory_query "cat.sch" (Some "DC1"))
    ≠ Py.strip (dc_inventory_query "cat.sch" (Some "DC2")).
Proof.
  destruct (dc_inventory_cache_keys "cat.sch" "DC1" "DC2") as (_ & Hnone & Hother).
  split.
  - apply Hnone. discriminate.
  - apply Hother; discriminate.
Defined.

(** X28. Within 300 seconds of the timestamp of the cached entry of its
    statement, [list_dc_inventory] answers from the cache: it converts the
    cached rows and sends nothing to the warehouse, whatever the warehouse
    would answer, and the state stays as it is. *)
Theorem list_dc_inventory_cached int_of_str ws config catalog schema_name dc_id
    now (σ : State) cached_at rows :
  _sql_cache σ !! Py.strip (dc_inventory_query (_schema catalog schema_name) dc_id)
    = Some (cached_at, rows) →
  (now - cached_at < 300)%Q →
  list_dc_inventory int_of_str ws config catalog schema_name dc_id now σ
  = (to_dc_inventory_list int_of_str rows, σ).
Proof.
  intros Hk Hage. unfold list_dc_inventory.
  rewrite (execute_sql_hit _ _ _ _ _ _ rows); [done|].
  by apply (fresh_rows_stored _ _ _ cached_at).
Qed.

Lemma list_dc_inventory_cached_witness :
  list_dc_inventory EndpointSamples.int_of_digits MoreSamples.ws_raising
    Samples.config "cat" "sch" (Some "") 1299 EndpointSamples.inventory_cached
  = (to_dc_inventory_list EndpointSamples.int_of_digits [EndpointSamples.full_row],
     EndpointSamples.inventory_cached).
Proof.
  apply (list_dc_inventory_cached EndpointSamples.int_of_digits
           MoreSamples.ws_raising Samples.config "cat" "sch" (Some "") 1299
           EndpointSamples.inventory_cached 1000 [EndpointSamples.full_row]).
  - reflexivity.
  - reflexivity.
Defined.

(** X29. The list comprehension of [list_dc_inventory] keeps the rows in
    order and drops none: when it returns, it returns as many items as
    there are rows, and the item at each index is the conversion of the row
    at that index. *)
Theorem to_dc_inventory_list_rows int_of_str rows items :
  to_dc_inventory_list int_of_str rows = inr items →
  length items = length rows
  ∧ ∀ i r, rows !! i = Some r →
           ∃ item, items !! i = Some item
                   ∧ to_dc_inventory int_of_str r = inr item.
Proof.
  revert items. induction rows as [|r0 rows IH]; intros items.
  - intros [= <-]. by split.
  - cbn [to_dc_inventory_list].
    destruct (to_dc_inventory int_of_str r0) as [e|item0] eqn:H0; [discriminate|].
    cbn [mbind Py.exn_bind].
    destruct (to_dc_inventory_list int_of_str rows) as [e|rest]; [discriminate|].
    cbn [mbind Py.exn_bind]. intros [= <-].
    destruct (IH rest eq_refl) as [Hlen Hitems]. split; [simpl; by rewrite Hlen|].
    intros [|i] r Hr; simplify_eq/=; [by exists item0|]. by apply Hitems.
Qed.

Lemma to_dc_inventory_list_rows_witness :
  ∃ items,
    to_dc_inventory_list EndpointSamples.int_of_digits
      [EndpointSamples.full_row; EndpointSamples.null_name_row] = inr items
    ∧ length items = 2%nat
    ∧ ∃ item, items !! 1%nat = Some item
              ∧ to_dc_inventory EndpointSamples.int_of_digits
                  EndpointSamples.null_name_row = inr item.
Proof.
  eexists. split; [vm_compute; reflexivity|].
  destruct (to_dc_inventory_list_rows EndpointSamples.int_of_digits
              [EndpointSamples.full_row; EndpointSamples.null_name_row] _
              ltac:(vm_compute; reflexivity)) as [Hlen Hitems].
  split; [exact Hlen|].
  apply Hitems. reflexivity.
Defined.

Lemma to_dc_inventory_null_int (int_of_str : string → Py.exn + Z) (r : Row)
    (k : string) :
  k ∈ ["allocated_qty"; "safety_stock"; "excess_qty"; "total_qty"] →
  r !! Some k = Some None →
  ∃ e, to_dc_inventory int_of_str r = inl e.
Proof.
  intros Hk Hnull. unfold to_dc_inventory.
  repeat (apply elem_of_cons in Hk as [->|Hk]);
    [..|by apply elem_of_nil in Hk];
    repeat match goal with
    | |- context [int_cell int_of_str r ?c] =>
        let H := fresh in
        destruct (int_cell int_of_str r c) eqn:H; cbn [mbind Py.exn_bind];
        try (eexists; reflexivity);
        try (unfold int_cell in H; rewrite Hnull in H; discriminate)
    end.
Qed.

(** X30. NULL cells: a NULL in one of the four integer columns of any row
    makes the whole list comprehension of [list_dc_inventory] raise, so the
    endpoint gives no partial list; a NULL in the text column
    [product_name] does not raise but shows up as the text ["None"]. *)
Theorem to_dc_inventory_list_null_cells (int_of_str : string → Py.exn + Z)
    (rows : list Row) (i : nat) (r : Row) (k : string) :
  rows !! i = Some r →
  (k ∈ ["allocated_qty"; "safety_stock"; "excess_qty"; "total_qty"] →
   r !! Some k = Some None →
   ∃ e, to_dc_inventory_list int_of_str rows = inl e)
  ∧ (r !! Some "product_name" = Some None →
     ∀ item, to_dc_inventory int_of_str r = inr item →
             product_name item = "None").
Proof.
  intros Hi. split.
  - intros Hk Hnull. revert i Hi.
    induction rows as [|r0 rows IH]; intros i Hi; [done|].
    cbn [to_dc_inventory_list]. destruct i as [|i]; simplify_eq/=.
    + destruct (to_dc_inventory_null_int int_of_str r k Hk Hnull) as [e ->].
      by exists e.
    + destruct (to_dc_inventory int_of_str r0) as [e|item0]; [by exists e|].
      cbn [mbind Py.exn_bind].
      destruct (IH i Hi) as [e ->]. by exists e.
  - intros Hname item. unfold to_dc_inventory.
    destruct (int_cell int_of_str r "allocated_qty"); [discriminate|].
    destruct (int_cell int_of_str r "safety_stock"); [discriminate|].
    destruct (int_cell int_of_str r "excess_qty"); [discriminate|].
    destruct (int_cell int_of_str r "total_qty"); [discriminate|].
    cbn [mbind Py.exn_bind Py.ret]. intros [= <-].
    cbn [product_name]. unfold str_cell. by rewrite Hname.
Qed.

Lemma to_dc_inventory_list_null_cells_witness :
  (∃ e, to_dc_inventory_list EndpointSamples.int_of_digits
          [EndpointSamples.full_row; EndpointSamples.null_qty_row] = inl e)
  ∧ (∃ item, to_dc_inventory EndpointSamples.int_of_digits
               EndpointSamples.null_name_row = inr item
             ∧ product_name item = "None").
Proof.
  split.
  - apply (to_dc_inventory_list_null_cells EndpointSamples.int_of_digits
             [EndpointSamples.full_row; EndpointSamples.null_qty_row] 1%nat
             EndpointSamples.null_qty_row "safety_stock"); [reflexivity| |reflexivity].
    apply elem_of_cons. right. apply elem_of_cons. by left.
  - eexists. split; [vm_compute; reflexivity|].
    apply (to_dc_inventory_list_null_cells EndpointSamples.int_of_digits
             [EndpointSamples.null_name_row] 0%nat
             EndpointSamples.null_name_row "allocated_qty");
      [reflexivity | reflexivity | vm_compute; reflexivity].
Defined.

End EndpointExtras.
